(** * go-SOLID: the five SOLID teaching examples, embedded and verified

    Every example of the repository is a Go [package main] of its own.  Each
    one becomes a Rocq [Module] below; the statements and the method bodies
    are transcribed from the Go source.  The only effects a Go function of
    this repository has are writing bytes to standard output and panicking,
    so Go code is run in an error-over-state monad whose state is the
    contents of standard output. *)

From Stdlib Require Import ZArith String Ascii List Bool Lia DecimalString DecimalPos DecimalZ.
From Stdlib Require Import Floats.SpecFloat.
From ExtLib Require Import Structures.Monad Structures.MonadState
  Structures.MonadExc Data.Monads.StateMonad Data.Monads.EitherMonad.
Import ListNotations.
Import MonadNotation.
Local Open Scope string_scope.
Local Open Scope monad_scope.

(** ** The Go runtime the examples use *)

(** Standard output is a byte stream; a Rocq [string] is a list of bytes. *)
Definition stdout := string.

(** A panic carries a value; every panic of the repository carries a string. *)
Definition panic_value := string.

(** [Go A]: a Go computation returning an [A].  Running it from the current
    contents of standard output gives the new contents together with either
    the panic value ([inl]) or the returned value ([inr]); what was written
    before a panic stays written. *)
Definition Go : Type -> Type := eitherT panic_value (state stdout).

Definition run {A : Type} (c : Go A) (w : stdout) : (panic_value + A) * stdout :=
  runState (unEitherT c) w.

(** What a computation writes when it starts from an empty standard output. *)
Definition written {A : Type} (c : Go A) : string := snd (run c "").

(** Whether it returns or panics there. *)
Definition outcome {A : Type} (c : Go A) : panic_value + A := fst (run c "").

Definition write (s : string) : Go unit :=
  out <- get ;; put (out ++ s).

(** The builtin [panic]. *)
Definition panic {A : Type} (v : panic_value) : Go A := raise v.

(** The message of the run-time panic raised by a method call through a nil
    interface value or a nil pointer. *)
Definition nil_dereference : panic_value :=
  "runtime error: invalid memory address or nil pointer dereference".

(** A Go pointer to a value that nothing mutates: nil, or the address of the
    value. *)
Inductive pointer (T : Type) : Type :=
| nil_pointer
| address_of (v : T).
Arguments nil_pointer {T}.
Arguments address_of {T} v.

(** Selecting a method or field through a pointer dereferences it. *)
Definition deref {T : Type} (p : pointer T) : Go T :=
  match p with
  | nil_pointer => panic nil_dereference
  | address_of v => ret v
  end.

(** A method declared with a value receiver belongs to the method set of the
    pointer type too, so a pointer can be stored in an interface value.  The
    call through the interface then runs the method on the value pointed to,
    and when the pointer is nil the run time panics with this message. *)
Definition nil_value_method (type_name method_name : string) : panic_value :=
  "value method main." ++ type_name ++ "." ++ method_name
  ++ " called using nil *" ++ type_name ++ " pointer".

Definition through_pointer {T A : Type} (type_name method_name : string)
    (method : T -> Go A) (p : pointer T) : Go A :=
  match p with
  | nil_pointer => panic (nil_value_method type_name method_name)
  | address_of v => method v
  end.

(** Go's [int].  No function of the repository computes with its [int]
    arguments: they are printed, or converted to [float64], so no wrap-around
    arises and an [int] is its value in [Z]. *)
Definition int := Z.

(** *** Package fmt *)

Definition LF : ascii := "010"%char.
Definition newline : string := String LF "".

(** Go's [int] printed by the verb [%d]: decimal digits, with a leading minus
    sign for a negative number. *)
Definition fmt_d (z : int) : string := NilZero.string_of_int (Z.to_int z).

(** Go's [float64] is IEEE 754 binary64: 53 bits of precision, exponents
    below 1024.  A value is a [spec_float]. *)
Definition float64 := spec_float.

(** The conversion [float64(n)] of an [int]: rounding to nearest, ties to
    even. *)
Definition float64_of_int (n : int) : float64 := binary_normalize 53 1024 n 0 false.

(** The number of hundredths nearest to [m * 2^e], ties to even: the digits
    the verb [%.2f] prints for a finite number. *)
Definition hundredths (m : positive) (e : Z) : Z :=
  if (0 <=? e)%Z then (Zpos m * 2 ^ e * 100)%Z
  else
    let d := (2 ^ (- e))%Z in
    let n := (Zpos m * 100)%Z in
    let q := (n / d)%Z in
    let r := (n mod d)%Z in
    if (2 * r <? d)%Z then q
    else if (d <? 2 * r)%Z then (q + 1)%Z
    else if Z.even q then q else (q + 1)%Z.

Definition fixed2 (h : Z) : string :=
  fmt_d (h / 100)%Z ++ "." ++ fmt_d ((h mod 100) / 10)%Z ++ fmt_d (h mod 10)%Z.

Definition sign_of (s : bool) : string := if s then "-" else "".

(** The verb [%.2f]. *)
Definition fmt_2f (x : float64) : string :=
  match x with
  | S754_nan => "NaN"
  | S754_infinity s => if s then "-Inf" else "+Inf"
  | S754_zero s => sign_of s ++ "0.00"
  | S754_finite s m e => sign_of s ++ fixed2 (hundredths m e)
  end.

(** A format string, cut at its verbs: literal text, [%d] with its [int]
    operand, [%.2f] with its [float64] operand.  The format
    ["Saving order %d to database\n"] applied to [orderID] is
    [[Lit "Saving order "; Verb_d orderID; Lit " to database"; Lit newline]]. *)
Inductive directive : Type :=
| Lit (s : string)
| Verb_d (n : int)
| Verb_2f (x : float64).

Definition render (d : directive) : string :=
  match d with
  | Lit s => s
  | Verb_d n => fmt_d n
  | Verb_2f x => fmt_2f x
  end.

Definition Sprintf (format : list directive) : string :=
  String.concat "" (map render format).

(** [fmt.Printf]. *)
Definition Printf (format : list directive) : Go unit := write (Sprintf format).

(** [fmt.Println] of string operands: the operands separated by one space,
    then a newline. *)
Definition Sprintln (operands : list string) : string :=
  String.concat " " operands ++ newline.

Definition Println (operands : list string) : Go unit := write (Sprintln operands).

(** *** Reading standard output back as lines *)

Definition is_LF (c : ascii) : bool := Ascii.eqb c LF.

(** The number of lines ended in a piece of output. *)
Fixpoint count_LF (s : string) : nat :=
  match s with
  | EmptyString => 0
  | String c r => (if is_LF c then 1 else 0) + count_LF r
  end.

(** The pieces of [s] between newlines, as [strings.Split(s, "\n")] gives
    them: output that is a sequence of complete lines [l1 .. ln] splits into
    [l1; ..; ln; ""]. *)
Fixpoint split_lines (s : string) : list string :=
  match s with
  | EmptyString => [EmptyString]
  | String c r =>
      if is_LF c then EmptyString :: split_lines r
      else match split_lines r with
           | h :: t => String c h :: t
           | [] => [String c EmptyString]
           end
  end.

(** [s] is exactly the complete lines [ls], each ended by a newline. *)
Definition is_lines (s : string) (ls : list string) : Prop :=
  split_lines s = (ls ++ [EmptyString])%list.

(** ** SingleResponsibility/main.go *)
Module SingleResponsibility.

Record OrderRepository : Set := Build_OrderRepository {}.

Definition OrderRepository_Save (o : OrderRepository) (orderID : int) : Go unit :=
  Printf [Lit "Saving order "; Verb_d orderID; Lit " to database"; Lit newline].

Record PaymentService : Set := Build_PaymentService {}.

Definition PaymentService_Process (p : PaymentService) (amount : float64) : Go unit :=
  Printf [Lit "Processing payment of "; Verb_2f amount; Lit newline].

Record EmailService : Set := Build_EmailService {}.

Definition EmailService_Send (e : EmailService) : Go unit :=
  Println ["Sending confirmation email"].

Record InvoiceService : Set := Build_InvoiceService {}.

Definition InvoiceService_Generate (i : InvoiceService) (orderID : int) : Go unit :=
  Printf [Lit "Generating invoice for order "; Verb_d orderID; Lit newline].

Record OrderService : Set := Build_OrderService {
  repo : OrderRepository;
  payment : PaymentService;
  email : EmailService;
  invoice : InvoiceService
}.

Definition OrderService_PlaceOrder (os : OrderService) (orderId : int) (amount : int) : Go unit :=
  OrderRepository_Save (repo os) orderId ;;
  PaymentService_Process (payment os) (float64_of_int amount) ;;
  EmailService_Send (email os) ;;
  InvoiceService_Generate (invoice os) orderId.

End SingleResponsibility.


(** ** LiskovSubstitution/main.go *)
Module LiskovSubstitution.

(** [type Bird interface { Fly() }]: the method set a type must have, and
    the interface values, each nil or a value of a type that has it. *)
Class Bird_methods (T : Type) : Type := { Fly : T -> Go unit }.

Inductive Bird : Type :=
| Bird_nil
| Bird_of {T : Type} {methods : Bird_methods T} (v : T).

(** The call [b.Fly()] on an interface value. *)
Definition Bird_Fly (b : Bird) : Go unit :=
  match b with
  | Bird_nil => panic nil_dereference
  | Bird_of v => Fly v
  end.

Record Sparrow : Set := Build_Sparrow {}.

Definition Sparrow_Fly (s : Sparrow) : Go unit :=
  Println ["Sparrow is flying"].

#[global] Instance Sparrow_is_Bird : Bird_methods Sparrow := { Fly := Sparrow_Fly }.
#[global] Instance Sparrow_pointer_is_Bird : Bird_methods (pointer Sparrow) :=
  { Fly := through_pointer "Sparrow" "Fly" Sparrow_Fly }.

Definition MakeBirdFly (b : Bird) : Go unit :=
  Bird_Fly b.

Definition main : Go unit :=
  let sparrow := Build_Sparrow in
  MakeBirdFly (Bird_of sparrow).

End LiskovSubstitution.

(** ** unnamed/part_000, first package: the Open/Closed example *)
Module OpenClosed.

Class Notification_methods (T : Type) : Type := { Send : T -> Go unit }.

Inductive Notification : Type :=
| Notification_nil
| Notification_of {T : Type} {methods : Notification_methods T} (v : T).

Definition Notification_Send (n : Notification) : Go unit :=
  match n with
  | Notification_nil => panic nil_dereference
  | Notification_of v => Send v
  end.

Record EmailService : Set := Build_EmailService {}.

Definition EmailService_Send (e : EmailService) : Go unit :=
  Println ["Sending email..."].

Record SmsService : Set := Build_SmsService {}.

Definition SmsService_Send (s : SmsService) : Go unit :=
  Println ["Sending SMS..."].

#[global] Instance EmailService_is_Notification : Notification_methods EmailService :=
  { Send := EmailService_Send }.
#[global] Instance SmsService_is_Notification : Notification_methods SmsService :=
  { Send := SmsService_Send }.
#[global] Instance EmailService_pointer_is_Notification :
  Notification_methods (pointer EmailService) :=
  { Send := through_pointer "EmailService" "Send" EmailService_Send }.
#[global] Instance SmsService_pointer_is_Notification :
  Notification_methods (pointer SmsService) :=
  { Send := through_pointer "SmsService" "Send" SmsService_Send }.

Definition SendNotification (n : Notification) : Go unit :=
  Notification_Send n.

Definition main : Go unit :=
  let email := Build_EmailService in
  let sms := Build_SmsService in
  SendNotification (Notification_of email) ;;
  SendNotification (Notification_of sms).

End OpenClosed.

(** ** unnamed/part_000, second package: the Dependency Inversion example *)
Module DependencyInversion.

Record PDFGenerator : Set := Build_PDFGenerator {}.

Definition PDFGenerator_Generate (p : PDFGenerator) (content : string) : Go unit :=
  Println ["Generating PDF with content:"; content].

Record ReportService : Set := Build_ReportService { pdf : PDFGenerator }.

Definition ReportService_CreateReport (r : ReportService) : Go unit :=
  let content := "Annual Financial Report" in
  PDFGenerator_Generate (pdf r) content.

Class ReportGenerator_methods (T : Type) : Type :=
  { Generate : T -> string -> Go unit }.

Inductive ReportGenerator : Type :=
| ReportGenerator_nil
| ReportGenerator_of {T : Type} {methods : ReportGenerator_methods T} (v : T).

Definition ReportGenerator_Generate (g : ReportGenerator) (content : string) : Go unit :=
  match g with
  | ReportGenerator_nil => panic nil_dereference
  | ReportGenerator_of v => Generate v content
  end.

#[global] Instance PDFGenerator_is_ReportGenerator : ReportGenerator_methods PDFGenerator :=
  { Generate := PDFGenerator_Generate }.
#[global] Instance PDFGenerator_pointer_is_ReportGenerator :
  ReportGenerator_methods (pointer PDFGenerator) :=
  { Generate := fun p content =>
      through_pointer "PDFGenerator" "Generate" (fun v => PDFGenerator_Generate v content) p }.

Record ReportServiceOne : Type := Build_ReportServiceOne { generator : ReportGenerator }.

Definition NewReportServiceOne (generator : ReportGenerator) : pointer ReportServiceOne :=
  address_of (Build_ReportServiceOne generator).

Definition ReportServiceOne_CreateReport (r : ReportServiceOne) : Go unit :=
  let content := "Annual Financial Report" in
  ReportGenerator_Generate (generator r) content.

(** The call [service.CreateReport()] on a [*ReportServiceOne]: the method
    has a value receiver, so the pointer is dereferenced first. *)
Definition ReportServiceOne_ptr_CreateReport (service : pointer ReportServiceOne) : Go unit :=
  r <- deref service ;; ReportServiceOne_CreateReport r.

Definition main : Go unit :=
  let pdf := Build_PDFGenerator in
  let service := NewReportServiceOne (ReportGenerator_of pdf) in
  ReportServiceOne_ptr_CreateReport service.

End DependencyInversion.

(** ** unnamed/part_001: the Interface Segregation example *)
Module InterfaceSegregation.

Record SimplePrinterOne : Set := Build_SimplePrinterOne {}.

Definition SimplePrinterOne_Print (s : SimplePrinterOne) : Go unit :=
  Println ["Printing document"].

Definition SimplePrinterOne_Scan (s : SimplePrinterOne) : Go unit :=
  panic "Scan not supported".

Definition SimplePrinterOne_Fax (s : SimplePrinterOne) : Go unit :=
  panic "Fax not supported".

Record SimplePrinter : Set := Build_SimplePrinter {}.

Definition SimplePrinter_Print (s : SimplePrinter) : Go unit :=
  Println ["Printing document"].

Record AdvancedMachine : Set := Build_AdvancedMachine {}.

Definition AdvancedMachine_Print (a : AdvancedMachine) : Go unit :=
  Println ["Printing document"].

Definition AdvancedMachine_Scan (a : AdvancedMachine) : Go unit :=
  Println ["Scanning document"].

Definition AdvancedMachine_Fax (a : AdvancedMachine) : Go unit :=
  Println ["Sending fax"].

(** The method names the package declares, and the values of its three
    struct types. *)
Inductive method_name : Set := Print | Scan | Fax.

Inductive value : Set :=
| of_SimplePrinterOne (s : SimplePrinterOne)
| of_SimplePrinter (s : SimplePrinter)
| of_AdvancedMachine (a : AdvancedMachine).

(** Method selection [v.m]: the declared method bound to its receiver, or
    [None] where the type of [v] declares no method of that name (the
    selector does not compile). *)
Definition method (v : value) (m : method_name) : option (Go unit) :=
  match v, m with
  | of_SimplePrinterOne s, Print => Some (SimplePrinterOne_Print s)
  | of_SimplePrinterOne s, Scan => Some (SimplePrinterOne_Scan s)
  | of_SimplePrinterOne s, Fax => Some (SimplePrinterOne_Fax s)
  | of_SimplePrinter s, Print => Some (SimplePrinter_Print s)
  | of_SimplePrinter s, Scan => None
  | of_SimplePrinter s, Fax => None
  | of_AdvancedMachine a, Print => Some (AdvancedMachine_Print a)
  | of_AdvancedMachine a, Scan => Some (AdvancedMachine_Scan a)
  | of_AdvancedMachine a, Fax => Some (AdvancedMachine_Fax a)
  end.

(** An interface is the list of the method names it declares (all of them
    without parameters or results here). *)
Definition interface := list method_name.

Definition Machine : interface := [Print; Scan; Fax].
Definition Printer : interface := [Print].
Definition Scanner : interface := [Scan].
Definition Faxer : interface := [Fax].

Definition exposes (v : value) (m : method_name) : bool :=
  match method v m with Some _ => true | None => false end.

(** Go's rule: a type implements an interface when its method set contains
    every method of the interface. *)
Definition implements (v : value) (i : interface) : bool :=
  forallb (exposes v) i.

End InterfaceSegregation.

(** ** unnamed/part_002: the second copy of the Single Responsibility example *)
Module SingleResponsibilityCopy.

Record OrderRepository : Set := Build_OrderRepository {}.

Definition OrderRepository_Save (o : OrderRepository) (orderID : int) : Go unit :=
  Printf [Lit "Saving order "; Verb_d orderID; Lit " to database"; Lit newline].

Record PaymentService : Set := Build_PaymentService {}.

Definition PaymentService_Process (p : PaymentService) (amount : float64) : Go unit :=
  Printf [Lit "Processing payment of "; Verb_2f amount; Lit newline].

Record EmailService : Set := Build_EmailService {}.

Definition EmailService_Send (e : EmailService) : Go unit :=
  Println ["Sending confirmation email"].

Record InvoiceService : Set := Build_InvoiceService {}.

Definition InvoiceService_Generate (i : InvoiceService) (orderID : int) : Go unit :=
  Printf [Lit "Generating invoice for order "; Verb_d orderID; Lit newline].

Record OrderService : Set := Build_OrderService {
  repo : OrderRepository;
  payment : PaymentService;
  email : EmailService;
  invoice : InvoiceService
}.

Definition OrderService_PlaceOrder (os : OrderService) (orderId : int) (amount : int) : Go unit :=
  OrderRepository_Save (repo os) orderId ;;
  PaymentService_Process (payment os) (float64_of_int amount) ;;
  EmailService_Send (email os) ;;
  InvoiceService_Generate (invoice os) orderId.

End SingleResponsibilityCopy.

(** ** The operations of the repository *)

(** The interface values that the types of the repository give: nil, a value
    of a struct type of the package that has the methods of the interface, or
    a pointer, nil or not, to such a value. *)
Inductive Bird_value : Type :=
| Bird_value_nil
| Bird_value_Sparrow (s : LiskovSubstitution.Sparrow)
| Bird_value_Sparrow_pointer (p : pointer LiskovSubstitution.Sparrow).

Definition Bird_of_value (b : Bird_value) : LiskovSubstitution.Bird :=
  match b with
  | Bird_value_nil => LiskovSubstitution.Bird_nil
  | Bird_value_Sparrow s => LiskovSubstitution.Bird_of s
  | Bird_value_Sparrow_pointer p => LiskovSubstitution.Bird_of p
  end.

Inductive Notification_value : Type :=
| Notification_value_nil
| Notification_value_EmailService (e : OpenClosed.EmailService)
| Notification_value_SmsService (s : OpenClosed.SmsService)
| Notification_value_EmailService_pointer (p : pointer OpenClosed.EmailService)
| Notification_value_SmsService_pointer (p : pointer OpenClosed.SmsService).

Definition Notification_of_value (n : Notification_value) : OpenClosed.Notification :=
  match n with
  | Notification_value_nil => OpenClosed.Notification_nil
  | Notification_value_EmailService e => OpenClosed.Notification_of e
  | Notification_value_SmsService s => OpenClosed.Notification_of s
  | Notification_value_EmailService_pointer p => OpenClosed.Notification_of p
  | Notification_value_SmsService_pointer p => OpenClosed.Notification_of p
  end.

Inductive ReportGenerator_value : Type :=
| ReportGenerator_value_nil
| ReportGenerator_value_PDFGenerator (p : DependencyInversion.PDFGenerator)
| ReportGenerator_value_PDFGenerator_pointer (p : pointer DependencyInversion.PDFGenerator).

Definition ReportGenerator_of_value (g : ReportGenerator_value) :
    DependencyInversion.ReportGenerator :=
  match g with
  | ReportGenerator_value_nil => DependencyInversion.ReportGenerator_nil
  | ReportGenerator_value_PDFGenerator p => DependencyInversion.ReportGenerator_of p
  | ReportGenerator_value_PDFGenerator_pointer p => DependencyInversion.ReportGenerator_of p
  end.

(** The invocations of the repository's methods and functions, the entry
    points apart:
    - every method of every struct type, at every receiver and argument; the
      receiver of [ReportServiceOne.CreateReport] is given by the value of its
      one field, [generator];
    - [SendNotification] and [MakeBirdFly] at every interface value above;
    - the constructor [NewReportServiceOne] at every interface value above,
      called for its effect, its result dropped;
    - [CreateReport] called through a [*ReportServiceOne], the only pointer
      type the repository uses: a nil pointer, or the address of a
      [ReportServiceOne] given by its [generator]. *)
Inductive operation : Type :=
| LSP_Sparrow_Fly (s : LiskovSubstitution.Sparrow)
| LSP_MakeBirdFly (b : Bird_value)
| OCP_EmailService_Send (e : OpenClosed.EmailService)
| OCP_SmsService_Send (s : OpenClosed.SmsService)
| OCP_SendNotification (n : Notification_value)
| DIP_PDFGenerator_Generate (p : DependencyInversion.PDFGenerator) (content : string)
| DIP_ReportService_CreateReport (r : DependencyInversion.ReportService)
| DIP_NewReportServiceOne (generator : ReportGenerator_value)
| DIP_ReportServiceOne_CreateReport (generator : ReportGenerator_value)
| DIP_ReportServiceOne_pointer_CreateReport (service : pointer ReportGenerator_value)
| ISP_SimplePrinterOne_Print (s : InterfaceSegregation.SimplePrinterOne)
| ISP_SimplePrinterOne_Scan (s : InterfaceSegregation.SimplePrinterOne)
| ISP_SimplePrinterOne_Fax (s : InterfaceSegregation.SimplePrinterOne)
| ISP_SimplePrinter_Print (s : InterfaceSegregation.SimplePrinter)
| ISP_AdvancedMachine_Print (a : InterfaceSegregation.AdvancedMachine)
| ISP_AdvancedMachine_Scan (a : InterfaceSegregation.AdvancedMachine)
| ISP_AdvancedMachine_Fax (a : InterfaceSegregation.AdvancedMachine)
| SRP_OrderRepository_Save (o : SingleResponsibility.OrderRepository) (orderID : int)
| SRP_PaymentService_Process (p : SingleResponsibility.PaymentService) (amount : float64)
| SRP_EmailService_Send (e : SingleResponsibility.EmailService)
| SRP_InvoiceService_Generate (i : SingleResponsibility.InvoiceService) (orderID : int)
| SRP_OrderService_PlaceOrder (os : SingleResponsibility.OrderService) (orderId amount : int)
| SRP2_OrderRepository_Save (o : SingleResponsibilityCopy.OrderRepository) (orderID : int)
| SRP2_PaymentService_Process (p : SingleResponsibilityCopy.PaymentService) (amount : float64)
| SRP2_EmailService_Send (e : SingleResponsibilityCopy.EmailService)
| SRP2_InvoiceService_Generate (i : SingleResponsibilityCopy.InvoiceService) (orderID : int)
| SRP2_OrderService_PlaceOrder (os : SingleResponsibilityCopy.OrderService) (orderId amount : int).

(** The [ReportServiceOne] whose field [generator] holds [g]. *)
Definition ReportServiceOne_with (g : ReportGenerator_value) :
    DependencyInversion.ReportServiceOne :=
  DependencyInversion.Build_ReportServiceOne (ReportGenerator_of_value g).

(** The [*ReportServiceOne] that is nil, or points to [ReportServiceOne_with g]. *)
Definition ReportServiceOne_pointer_with (service : pointer ReportGenerator_value) :
    pointer DependencyInversion.ReportServiceOne :=
  match service with
  | nil_pointer => nil_pointer
  | address_of g => address_of (ReportServiceOne_with g)
  end.

Definition invoke (op : operation) : Go unit :=
  match op with
  | LSP_Sparrow_Fly s => LiskovSubstitution.Sparrow_Fly s
  | LSP_MakeBirdFly b => LiskovSubstitution.MakeBirdFly (Bird_of_value b)
  | OCP_EmailService_Send e => OpenClosed.EmailService_Send e
  | OCP_SmsService_Send s => OpenClosed.SmsService_Send s
  | OCP_SendNotification n => OpenClosed.SendNotification (Notification_of_value n)
  | DIP_PDFGenerator_Generate p content => DependencyInversion.PDFGenerator_Generate p content
  | DIP_ReportService_CreateReport r => DependencyInversion.ReportService_CreateReport r
  | DIP_NewReportServiceOne generator =>
      ret (DependencyInversion.NewReportServiceOne (ReportGenerator_of_value generator)) ;;
      ret tt
  | DIP_ReportServiceOne_CreateReport generator =>
      DependencyInversion.ReportServiceOne_CreateReport (ReportServiceOne_with generator)
  | DIP_ReportServiceOne_pointer_CreateReport service =>
      DependencyInversion.ReportServiceOne_ptr_CreateReport (ReportServiceOne_pointer_with service)
  | ISP_SimplePrinterOne_Print s => InterfaceSegregation.SimplePrinterOne_Print s
  | ISP_SimplePrinterOne_Scan s => InterfaceSegregation.SimplePrinterOne_Scan s
  | ISP_SimplePrinterOne_Fax s => InterfaceSegregation.SimplePrinterOne_Fax s
  | ISP_SimplePrinter_Print s => InterfaceSegregation.SimplePrinter_Print s
  | ISP_AdvancedMachine_Print a => InterfaceSegregation.AdvancedMachine_Print a
  | ISP_AdvancedMachine_Scan a => InterfaceSegregation.AdvancedMachine_Scan a
  | ISP_AdvancedMachine_Fax a => InterfaceSegregation.AdvancedMachine_Fax a
  | SRP_OrderRepository_Save o orderID => SingleResponsibility.OrderRepository_Save o orderID
  | SRP_PaymentService_Process p amount => SingleResponsibility.PaymentService_Process p amount
  | SRP_EmailService_Send e => SingleResponsibility.EmailService_Send e
  | SRP_InvoiceService_Generate i orderID => SingleResponsibility.InvoiceService_Generate i orderID
  | SRP_OrderService_PlaceOrder os orderId amount =>
      SingleResponsibility.OrderService_PlaceOrder os orderId amount
  | SRP2_OrderRepository_Save o orderID => SingleResponsibilityCopy.OrderRepository_Save o orderID
  | SRP2_PaymentService_Process p amount => SingleResponsibilityCopy.PaymentService_Process p amount
  | SRP2_EmailService_Send e => SingleResponsibilityCopy.EmailService_Send e
  | SRP2_InvoiceService_Generate i orderID =>
      SingleResponsibilityCopy.InvoiceService_Generate i orderID
  | SRP2_OrderService_PlaceOrder os orderId amount =>
      SingleResponsibilityCopy.OrderService_PlaceOrder os orderId amount
  end.

(** The operations that sequence several collaborators. *)
Definition sequences_collaborators (op : operation) : bool :=
  match op with
  | SRP_OrderService_PlaceOrder _ _ _ | SRP2_OrderService_PlaceOrder _ _ _ => true
  | _ => false
  end.

(** The operations whose body is a call of [panic]. *)
Definition unsupported (op : operation) : bool :=
  match op with
  | ISP_SimplePrinterOne_Scan _ | ISP_SimplePrinterOne_Fax _ => true
  | _ => false
  end.

(** Whether an interface value is nil or holds a nil pointer: a method call
    through it panics. *)
Definition Bird_value_is_nil (b : Bird_value) : bool :=
  match b with
  | Bird_value_nil | Bird_value_Sparrow_pointer nil_pointer => true
  | _ => false
  end.

Definition Notification_value_is_nil (n : Notification_value) : bool :=
  match n with
  | Notification_value_nil
  | Notification_value_EmailService_pointer nil_pointer
  | Notification_value_SmsService_pointer nil_pointer => true
  | _ => false
  end.

Definition ReportGenerator_value_is_nil (g : ReportGenerator_value) : bool :=
  match g with
  | ReportGenerator_value_nil | ReportGenerator_value_PDFGenerator_pointer nil_pointer => true
  | _ => false
  end.

(** The operations that call a method through nil: a coordinator given such
    an interface value, and [CreateReport] through a nil pointer. *)
Definition calls_through_nil (op : operation) : bool :=
  match op with
  | LSP_MakeBirdFly b => Bird_value_is_nil b
  | OCP_SendNotification n => Notification_value_is_nil n
  | DIP_ReportServiceOne_CreateReport g => ReportGenerator_value_is_nil g
  | DIP_ReportServiceOne_pointer_CreateReport nil_pointer => true
  | DIP_ReportServiceOne_pointer_CreateReport (address_of g) => ReportGenerator_value_is_nil g
  | _ => false
  end.

(** The operations that panic: the two stubs and the calls through nil. *)
Definition panicking (op : operation) : bool :=
  unsupported op || calls_through_nil op.

(** The constructor, which calls no method and prints nothing. *)
Definition constructs (op : operation) : bool :=
  match op with
  | DIP_NewReportServiceOne _ => true
  | _ => false
  end.

(** The string argument of an operation, where it has one. *)
Definition string_argument (op : operation) : string :=
  match op with
  | DIP_PDFGenerator_Generate _ content => content
  | _ => ""
  end.

(** ** Properties of computations *)

(** [c] writes exactly one line, whatever is on standard output already, and
    returns. *)
Definition writes_one_line (c : Go unit) : Prop :=
  exists line, count_LF line = 0 /\ forall w, run c w = (inr tt, w ++ line ++ newline).

(** [c] panics when invoked. *)
Definition panics (c : Go unit) : Prop :=
  exists msg, forall w, fst (run c w) = inl msg.

(** [c] returns without any effect. *)
Definition no_op (c : Go unit) : Prop :=
  forall w, run c w = (inr tt, w).

(** A stub: an operation that errors or does nothing. *)
Definition stub (c : Go unit) : Prop := panics c \/ no_op c.

(** [c] returns normally after writing one non-empty line. *)
Definition performs (c : Go unit) : Prop :=
  exists line, line <> "" /\ count_LF line = 0 /\
    forall w, run c w = (inr tt, w ++ line ++ newline).

(** The result and the output of [c] do not depend on what standard output
    holds when it starts: it only appends, always the same bytes. *)
Definition stateless {A : Type} (c : Go A) : Prop :=
  forall w, run c w = (outcome c, w ++ written c).

(** ** Strings and lines *)

Lemma append_empty_r (s : string) : s ++ "" = s.
Proof. induction s as [|c s IH]; simpl; [reflexivity | now rewrite IH]. Qed.

Lemma append_assoc (a b c : string) : (a ++ b) ++ c = a ++ (b ++ c).
Proof. induction a as [|x a IH]; simpl; [reflexivity | now rewrite IH]. Qed.

Lemma count_LF_append (a b : string) : count_LF (a ++ b) = count_LF a + count_LF b.
Proof.
  induction a as [|x a IH]; simpl; [reflexivity |].
  rewrite IH. now rewrite Nat.add_assoc.
Qed.

(** A piece without newline followed by a newline is the first line. *)
Lemma split_lines_first (a r : string) :
  count_LF a = 0 -> split_lines (a ++ newline ++ r) = a :: split_lines r.
Proof.
  change (newline ++ r) with (String LF r).
  induction a as [|x a IH]; simpl; intros H.
  - reflexivity.
  - destruct (is_LF x); [discriminate |].
    rewrite (IH H). reflexivity.
Qed.

(** The number of pieces is one more than the number of newlines. *)
Lemma length_split_lines (s : string) : List.length (split_lines s) = S (count_LF s).
Proof.
  induction s as [|x s IH]; simpl; [reflexivity |].
  destruct (is_LF x); simpl.
  - now rewrite IH.
  - destruct (split_lines s); simpl in *; [discriminate | exact IH].
Qed.

Lemma is_lines_count (s : string) (ls : list string) :
  is_lines s ls -> count_LF s = List.length ls.
Proof.
  unfold is_lines. intros H.
  pose proof (length_split_lines s) as L. rewrite H in L.
  rewrite List.length_app in L. simpl in L. lia.
Qed.

Lemma is_lines_nil : is_lines "" [].
Proof. reflexivity. Qed.

Lemma is_lines_cons (a r : string) (ls : list string) :
  count_LF a = 0 -> is_lines r ls -> is_lines (a ++ newline ++ r) (a :: ls).
Proof.
  unfold is_lines. intros Ha Hr. rewrite (split_lines_first a r Ha), Hr. reflexivity.
Qed.

Lemma is_lines_one (a : string) : count_LF a = 0 -> is_lines (a ++ newline) [a].
Proof.
  intros Ha. exact (is_lines_cons a "" [] Ha is_lines_nil).
Qed.

Lemma is_lines_four (a b c d : string) :
  count_LF a = 0 -> count_LF b = 0 -> count_LF c = 0 -> count_LF d = 0 ->
  is_lines ((a ++ newline) ++ (b ++ newline) ++ (c ++ newline) ++ (d ++ newline)) [a; b; c; d].
Proof.
  intros Ha Hb Hc Hd. rewrite !append_assoc.
  do 3 (apply is_lines_cons; [assumption |]).
  now apply is_lines_one.
Qed.

(** *** What the verbs print holds no newline *)

Lemma count_LF_string_of_uint (d : Decimal.uint) :
  count_LF (NilEmpty.string_of_uint d) = 0.
Proof. induction d; simpl; auto. Qed.

Lemma count_LF_fmt_d (z : int) : count_LF (fmt_d z) = 0.
Proof.
  unfold fmt_d, NilZero.string_of_int.
  destruct (Z.to_int z) as [d|d]; unfold NilZero.string_of_uint;
    destruct d; simpl; auto using count_LF_string_of_uint.
Qed.

Lemma count_LF_sign_of (s : bool) : count_LF (sign_of s) = 0.
Proof. now destruct s. Qed.

Lemma count_LF_fixed2 (h : Z) : count_LF (fixed2 h) = 0.
Proof.
  unfold fixed2. rewrite !count_LF_append, !count_LF_fmt_d. reflexivity.
Qed.

Lemma count_LF_fmt_2f (x : float64) : count_LF (fmt_2f x) = 0.
Proof.
  destruct x as [s|s| |s m e]; simpl.
  - rewrite count_LF_append, count_LF_sign_of. reflexivity.
  - now destruct s.
  - reflexivity.
  - rewrite count_LF_append, count_LF_sign_of, count_LF_fixed2. reflexivity.
Qed.

(** ** Running computations *)

Lemma run_ret {A : Type} (a : A) (w : stdout) : run (ret a) w = (inr a, w).
Proof. reflexivity. Qed.

Lemma run_write (s : string) (w : stdout) : run (write s) w = (inr tt, w ++ s).
Proof. reflexivity. Qed.

Lemma run_panic {A : Type} (v : panic_value) (w : stdout) :
  run (@panic A v) w = (inl v, w).
Proof. reflexivity. Qed.

Lemma run_bind {A B : Type} (c : Go A) (k : A -> Go B) (w : stdout) :
  run (bind c k) w =
  match run c w with
  | (inl v, w') => (inl v, w')
  | (inr a, w') => run (k a) w'
  end.
Proof.
  unfold run. simpl.
  destruct (runState (unEitherT c) w) as [[v|a] w']; reflexivity.
Qed.

Lemma run_Println (operands : list string) (w : stdout) :
  run (Println operands) w = (inr tt, w ++ String.concat " " operands ++ newline).
Proof. reflexivity. Qed.

Lemma run_Printf (format : list directive) (w : stdout) :
  run (Printf format) w = (inr tt, w ++ Sprintf format).
Proof. reflexivity. Qed.

Lemma Sprintf_nil : Sprintf [] = "".
Proof. reflexivity. Qed.

Lemma Sprintf_cons (d : directive) (ds : list directive) :
  Sprintf (d :: ds) = render d ++ Sprintf ds.
Proof.
  unfold Sprintf. destruct ds as [|d' ds]; simpl.
  - now rewrite append_empty_r.
  - reflexivity.
Qed.

(** *** Statelessness is preserved by every way the repository builds code *)

Lemma stateless_ret {A : Type} (a : A) : stateless (ret a : Go A).
Proof. intros w. unfold outcome, written. rewrite !run_ret. simpl. now rewrite append_empty_r. Qed.

Lemma stateless_write (s : string) : stateless (write s).
Proof. intros w. reflexivity. Qed.

Lemma stateless_panic {A : Type} (v : panic_value) : stateless (@panic A v).
Proof. intros w. unfold outcome, written. rewrite !run_panic. simpl. now rewrite append_empty_r. Qed.

Lemma stateless_bind {A B : Type} (c : Go A) (k : A -> Go B) :
  stateless c -> (forall a, stateless (k a)) -> stateless (bind c k).
Proof.
  intros Hc Hk w. unfold outcome, written.
  rewrite !run_bind, (Hc w), (Hc "").
  destruct (outcome c) as [v|a]; simpl.
  - reflexivity.
  - rewrite (Hk a (w ++ written c)).
    rewrite (Hk a (written c)). simpl. now rewrite append_assoc.
Qed.

(** *** The methods of the repository, run *)

Lemma performs_not_stub (c : Go unit) : performs c -> ~ stub c.
Proof.
  intros (line & _ & _ & Hrun) [[msg Hp] | Hn].
  - specialize (Hp ""). rewrite Hrun in Hp. discriminate.
  - specialize (Hn ""). rewrite Hrun in Hn.
    injection Hn as Hn. simpl in Hn.
    destruct line; discriminate.
Qed.

Lemma performs_Println (text : string) :
  text <> "" -> count_LF text = 0 -> performs (Println [text]).
Proof.
  intros Hne Hc. exists text. repeat split; auto.
Qed.

Lemma writes_one_line_unique (c : Go unit) (n : nat) :
  writes_one_line c -> count_LF (written c) = n -> n = 1.
Proof.
  intros (line & Hc & Hrun) Hn. unfold written in Hn.
  rewrite Hrun in Hn. simpl in Hn.
  rewrite count_LF_append, Hc in Hn. simpl in Hn. congruence.
Qed.

Section SingleResponsibilityRuns.
Import SingleResponsibility.

Lemma run_Save (o : OrderRepository) (orderID : int) (w : stdout) :
  run (OrderRepository_Save o orderID) w =
  (inr tt, w ++ ("Saving order " ++ fmt_d orderID ++ " to database") ++ newline).
Proof.
  unfold OrderRepository_Save. rewrite run_Printf, !Sprintf_cons, Sprintf_nil.
  cbn [render]. now rewrite append_empty_r, !append_assoc.
Qed.

Lemma run_Process (p : PaymentService) (amount : float64) (w : stdout) :
  run (PaymentService_Process p amount) w =
  (inr tt, w ++ ("Processing payment of " ++ fmt_2f amount) ++ newline).
Proof.
  unfold PaymentService_Process. rewrite run_Printf, !Sprintf_cons, Sprintf_nil.
  cbn [render]. now rewrite append_empty_r, !append_assoc.
Qed.

Lemma run_Send (e : EmailService) (w : stdout) :
  run (EmailService_Send e) w = (inr tt, w ++ "Sending confirmation email" ++ newline).
Proof. reflexivity. Qed.

Lemma run_Generate (i : InvoiceService) (orderID : int) (w : stdout) :
  run (InvoiceService_Generate i orderID) w =
  (inr tt, w ++ ("Generating invoice for order " ++ fmt_d orderID) ++ newline).
Proof.
  unfold InvoiceService_Generate. rewrite run_Printf, !Sprintf_cons, Sprintf_nil.
  cbn [render]. now rewrite append_empty_r, !append_assoc.
Qed.

Lemma run_PlaceOrder (os : OrderService) (orderId amount : int) (w : stdout) :
  run (OrderService_PlaceOrder os orderId amount) w =
  (inr tt,
   w ++ (("Saving order " ++ fmt_d orderId ++ " to database") ++ newline)
     ++ (("Processing payment of " ++ fmt_2f (float64_of_int amount)) ++ newline)
     ++ ("Sending confirmation email" ++ newline)
     ++ (("Generating invoice for order " ++ fmt_d orderId) ++ newline)).
Proof.
  unfold OrderService_PlaceOrder.
  rewrite run_bind, run_Save, run_bind, run_Process, run_bind, run_Send, run_Generate.
  now rewrite !append_assoc.
Qed.

Lemma count_LF_Save_line (orderID : int) :
  count_LF ("Saving order " ++ fmt_d orderID ++ " to database") = 0.
Proof. rewrite !count_LF_append, count_LF_fmt_d. reflexivity. Qed.

Lemma count_LF_Process_line (amount : float64) :
  count_LF ("Processing payment of " ++ fmt_2f amount) = 0.
Proof. rewrite !count_LF_append, count_LF_fmt_2f. reflexivity. Qed.

Lemma count_LF_Generate_line (orderID : int) :
  count_LF ("Generating invoice for order " ++ fmt_d orderID) = 0.
Proof. rewrite !count_LF_append, count_LF_fmt_d. reflexivity. Qed.

Lemma is_lines_PlaceOrder (os : OrderService) (orderId amount : int) :
  is_lines (written (OrderService_PlaceOrder os orderId amount))
    ["Saving order " ++ fmt_d orderId ++ " to database";
     "Processing payment of " ++ fmt_2f (float64_of_int amount);
     "Sending confirmation email";
     "Generating invoice for order " ++ fmt_d orderId].
Proof.
  unfold written. rewrite run_PlaceOrder.
  apply (is_lines_four
           ("Saving order " ++ fmt_d orderId ++ " to database")
           ("Processing payment of " ++ fmt_2f (float64_of_int amount))
           "Sending confirmation email"
           ("Generating invoice for order " ++ fmt_d orderId)).
  - apply count_LF_Save_line.
  - apply count_LF_Process_line.
  - reflexivity.
  - apply count_LF_Generate_line.
Qed.

End SingleResponsibilityRuns.

(** A coordinator handed the nil interface value panics in the method call. *)
Lemma SendNotification_nil_panics (w : stdout) :
  run (OpenClosed.SendNotification OpenClosed.Notification_nil) w = (inl nil_dereference, w).
Proof. reflexivity. Qed.

(** An interface value may hold a pointer: the nil [*EmailService] is a
    [Notification] that is not nil, and [SendNotification] panics in the call
    of [Send] through it. *)
Example SendNotification_nil_pointer_panics (w : stdout) :
  run (OpenClosed.SendNotification
         (OpenClosed.Notification_of (@nil_pointer OpenClosed.EmailService))) w
  = (inl "value method main.EmailService.Send called using nil *EmailService pointer", w).
Proof. reflexivity. Qed.

(** ** The claims *)

(** C1.  Each coordinator, given any value of any type that has the methods
    of the interface it expects, is the variant's own operation:
    [SendNotification(n)] is [n.Send()], [MakeBirdFly(b)] is [b.Fly()], and
    [CreateReport] of a [ReportServiceOne] holding [g] is
    [g.Generate("Annual Financial Report")].  The statement quantifies over
    every type and every implementation of the methods, those the repository
    does not contain included, so no coordinator can depend on which variant
    it holds. *)
Theorem coordinators_invoke_the_variant_operation :
  (forall (T : Type) (M : OpenClosed.Notification_methods T) (n : T),
      OpenClosed.SendNotification (OpenClosed.Notification_of n) = OpenClosed.Send n)
  /\ (forall (T : Type) (M : LiskovSubstitution.Bird_methods T) (b : T),
      LiskovSubstitution.MakeBirdFly (LiskovSubstitution.Bird_of b) = LiskovSubstitution.Fly b)
  /\ (forall (T : Type) (M : DependencyInversion.ReportGenerator_methods T) (g : T),
      DependencyInversion.ReportServiceOne_CreateReport
        (DependencyInversion.Build_ReportServiceOne (DependencyInversion.ReportGenerator_of g))
      = DependencyInversion.Generate g "Annual Financial Report").
Proof. repeat split. Qed.

(** C2.  For every order and amount, [PlaceOrder] returns after appending to
    standard output what [Save], [Process], [Send] and [Generate] write, in
    that order; each of the four writes exactly one line, so the output is
    four lines, the i-th being the line of the i-th collaborator. *)
Theorem PlaceOrder_runs_four_collaborators_in_order :
  forall (os : SingleResponsibility.OrderService) (orderId amount : int),
    let save := SingleResponsibility.OrderRepository_Save (SingleResponsibility.repo os) orderId in
    let process :=
      SingleResponsibility.PaymentService_Process (SingleResponsibility.payment os)
        (float64_of_int amount) in
    let send := SingleResponsibility.EmailService_Send (SingleResponsibility.email os) in
    let generate :=
      SingleResponsibility.InvoiceService_Generate (SingleResponsibility.invoice os) orderId in
    let line1 := "Saving order " ++ fmt_d orderId ++ " to database" in
    let line2 := "Processing payment of " ++ fmt_2f (float64_of_int amount) in
    let line3 := "Sending confirmation email" in
    let line4 := "Generating invoice for order " ++ fmt_d orderId in
    (forall w : stdout,
        run (SingleResponsibility.OrderService_PlaceOrder os orderId amount) w =
        (inr tt, w ++ written save ++ written process ++ written send ++ written generate))
    /\ is_lines (written save) [line1]
    /\ is_lines (written process) [line2]
    /\ is_lines (written send) [line3]
    /\ is_lines (written generate) [line4]
    /\ is_lines (written (SingleResponsibility.OrderService_PlaceOrder os orderId amount))
         [line1; line2; line3; line4]
    /\ count_LF (written (SingleResponsibility.OrderService_PlaceOrder os orderId amount)) = 4.
Proof.
  intros os orderId amount save process send generate line1 line2 line3 line4.
  assert (Hs : written save = line1 ++ newline).
  { unfold written, save. now rewrite run_Save. }
  assert (Hp : written process = line2 ++ newline).
  { unfold written, process. now rewrite run_Process. }
  assert (Hm : written send = line3 ++ newline) by reflexivity.
  assert (Hg : written generate = line4 ++ newline).
  { unfold written, generate. now rewrite run_Generate. }
  assert (H1 : count_LF line1 = 0) by apply count_LF_Save_line.
  assert (H2 : count_LF line2 = 0) by apply count_LF_Process_line.
  assert (H3 : count_LF line3 = 0) by reflexivity.
  assert (H4 : count_LF line4 = 0) by apply count_LF_Generate_line.
  split; [| split; [| split; [| split; [| split; [| split]]]]].
  - intros w. now rewrite run_PlaceOrder, Hs, Hp, Hm, Hg.
  - rewrite Hs. now apply is_lines_one.
  - rewrite Hp. now apply is_lines_one.
  - rewrite Hm. now apply is_lines_one.
  - rewrite Hg. now apply is_lines_one.
  - exact (is_lines_PlaceOrder os orderId amount).
  - exact (is_lines_count _ _ (is_lines_PlaceOrder os orderId amount)).
Qed.

(** C4.  [SimplePrinterOne.Scan()] and [SimplePrinterOne.Fax()] panic on every
    invocation, with the messages of the source and without writing
    anything, and so never return normally; [SimplePrinterOne.Print()]
    returns normally after writing its line. *)
Theorem SimplePrinterOne_Scan_and_Fax_panic :
  forall (s : InterfaceSegregation.SimplePrinterOne) (w : stdout),
    run (InterfaceSegregation.SimplePrinterOne_Scan s) w = (inl "Scan not supported", w)
    /\ run (InterfaceSegregation.SimplePrinterOne_Fax s) w = (inl "Fax not supported", w)
    /\ run (InterfaceSegregation.SimplePrinterOne_Print s) w
       = (inr tt, w ++ "Printing document" ++ newline).
Proof. intros s w. repeat split. Qed.

(** C5.  [SimplePrinter] has the method [Print] and implements [Printer]
    only: selecting [Scan] or [Fax] on it finds no method (the call does not
    exist, it is not a call that fails), and it implements none of
    [Scanner], [Faxer] and [Machine].  [AdvancedMachine] implements
    [Printer], [Scanner] and [Faxer], and each of its three methods returns
    after writing its line. *)
Theorem SimplePrinter_exposes_only_Print :
  forall (s : InterfaceSegregation.SimplePrinter) (a : InterfaceSegregation.AdvancedMachine),
    let sp := InterfaceSegregation.of_SimplePrinter s in
    let am := InterfaceSegregation.of_AdvancedMachine a in
    InterfaceSegregation.implements sp InterfaceSegregation.Printer = true
    /\ InterfaceSegregation.method sp InterfaceSegregation.Print
       = Some (InterfaceSegregation.SimplePrinter_Print s)
    /\ InterfaceSegregation.method sp InterfaceSegregation.Scan = None
    /\ InterfaceSegregation.method sp InterfaceSegregation.Fax = None
    /\ InterfaceSegregation.implements sp InterfaceSegregation.Scanner = false
    /\ InterfaceSegregation.implements sp InterfaceSegregation.Faxer = false
    /\ InterfaceSegregation.implements sp InterfaceSegregation.Machine = false
    /\ InterfaceSegregation.implements am InterfaceSegregation.Printer = true
    /\ InterfaceSegregation.implements am InterfaceSegregation.Scanner = true
    /\ InterfaceSegregation.implements am InterfaceSegregation.Faxer = true
    /\ (forall w : stdout,
          run (InterfaceSegregation.SimplePrinter_Print s) w
          = (inr tt, w ++ "Printing document" ++ newline)
          /\ run (InterfaceSegregation.AdvancedMachine_Print a) w
             = (inr tt, w ++ "Printing document" ++ newline)
          /\ run (InterfaceSegregation.AdvancedMachine_Scan a) w
             = (inr tt, w ++ "Scanning document" ++ newline)
          /\ run (InterfaceSegregation.AdvancedMachine_Fax a) w
             = (inr tt, w ++ "Sending fax" ++ newline)).
Proof. intros s a. repeat split. Qed.

(** C6.  [EmailService] and [SmsService] both have the method of
    [Notification], so a value of each is a [Notification];
    [SendNotification] writes the line "Sending email..." for the first and
    the line "Sending SMS..." for the second, the two lines differ, and
    [main], which calls it with one then the other, writes these two lines. *)
Theorem SendNotification_email_and_sms_differ :
  exists (email sms : OpenClosed.Notification),
    email = OpenClosed.Notification_of OpenClosed.Build_EmailService
    /\ sms = OpenClosed.Notification_of OpenClosed.Build_SmsService
    /\ (forall w : stdout,
          run (OpenClosed.SendNotification email) w = (inr tt, w ++ "Sending email..." ++ newline))
    /\ (forall w : stdout,
          run (OpenClosed.SendNotification sms) w = (inr tt, w ++ "Sending SMS..." ++ newline))
    /\ written (OpenClosed.SendNotification email) <> written (OpenClosed.SendNotification sms)
    /\ is_lines (written (OpenClosed.SendNotification email)) ["Sending email..."]
    /\ is_lines (written (OpenClosed.SendNotification sms)) ["Sending SMS..."]
    /\ is_lines (written OpenClosed.main) ["Sending email..."; "Sending SMS..."].
Proof.
  eexists. eexists. split; [reflexivity |]. split; [reflexivity |].
  repeat split. discriminate.
Qed.

(** C9.  With the same concrete generator, the two report services of the
    Dependency Inversion example behave alike:
    [ReportService{pdf: PDFGenerator{}}.CreateReport()] and
    [NewReportServiceOne(PDFGenerator{}).CreateReport()] both return after
    writing the line "Generating PDF with content: Annual Financial Report". *)
Theorem ReportService_and_ReportServiceOne_agree :
  forall w : stdout,
    let bad :=
      DependencyInversion.ReportService_CreateReport
        (DependencyInversion.Build_ReportService DependencyInversion.Build_PDFGenerator) in
    let good :=
      DependencyInversion.ReportServiceOne_ptr_CreateReport
        (DependencyInversion.NewReportServiceOne
           (DependencyInversion.ReportGenerator_of DependencyInversion.Build_PDFGenerator)) in
    run bad w = (inr tt, w ++ "Generating PDF with content: Annual Financial Report" ++ newline)
    /\ run good w = run bad w.
Proof. intros w. split; reflexivity. Qed.

(** C10.  The two copies of the Single Responsibility example agree: for every
    order and amount, and whatever standard output holds, [PlaceOrder] of
    unnamed/part_002 and [PlaceOrder] of SingleResponsibility/main.go return
    alike and leave the same bytes on standard output. *)
Theorem PlaceOrder_copies_agree :
  forall (os : SingleResponsibility.OrderService) (os' : SingleResponsibilityCopy.OrderService)
         (orderId amount : int) (w : stdout),
    run (SingleResponsibilityCopy.OrderService_PlaceOrder os' orderId amount) w
    = run (SingleResponsibility.OrderService_PlaceOrder os orderId amount) w.
Proof. intros. reflexivity. Qed.

(** C3, as stated, fails.  [SimplePrinterOne] has the three methods of
    [Machine], so it implements [Machine], and its [Scan] is a stub: it
    panics on every invocation.  Hence not every operation of every type
    implementing [Machine] performs. *)
Lemma SimplePrinterOne_implements_Machine_with_a_stub :
  let s := InterfaceSegregation.Build_SimplePrinterOne in
  InterfaceSegregation.implements (InterfaceSegregation.of_SimplePrinterOne s)
    InterfaceSegregation.Machine = true
  /\ InterfaceSegregation.method (InterfaceSegregation.of_SimplePrinterOne s)
       InterfaceSegregation.Scan = Some (InterfaceSegregation.SimplePrinterOne_Scan s)
  /\ stub (InterfaceSegregation.SimplePrinterOne_Scan s)
  /\ ~ (forall (v : InterfaceSegregation.value) (m : InterfaceSegregation.method_name)
               (c : Go unit),
           InterfaceSegregation.implements v InterfaceSegregation.Machine = true ->
           In m InterfaceSegregation.Machine ->
           InterfaceSegregation.method v m = Some c ->
           performs c /\ ~ stub c).
Proof.
  intros s.
  assert (Hstub : stub (InterfaceSegregation.SimplePrinterOne_Scan s)).
  { left. exists "Scan not supported". intros w. reflexivity. }
  split; [reflexivity |]. split; [reflexivity |]. split; [exact Hstub |].
  intros H.
  destruct (H (InterfaceSegregation.of_SimplePrinterOne s) InterfaceSegregation.Scan
              (InterfaceSegregation.SimplePrinterOne_Scan s)) as [_ Hn].
  - reflexivity.
  - simpl. auto.
  - reflexivity.
  - exact (Hn Hstub).
Qed.

(** C3, amended.  Of the types implementing [Machine], every operation of
    [AdvancedMachine], and [Print] of [SimplePrinterOne], performs: it returns
    normally after writing one non-empty line, so it is no stub.
    ([SimplePrinterOne] is the source's example of a fat interface; what its
    [Scan] and [Fax] do is C4.) *)
Theorem Machine_operations_perform_except_SimplePrinterOne_stubs :
  forall (v : InterfaceSegregation.value) (m : InterfaceSegregation.method_name) (c : Go unit),
    InterfaceSegregation.implements v InterfaceSegregation.Machine = true ->
    InterfaceSegregation.method v m = Some c ->
    (forall s, v = InterfaceSegregation.of_SimplePrinterOne s -> m = InterfaceSegregation.Print) ->
    performs c /\ ~ stub c.
Proof.
  intros v m c Himpl Hm Hgood.
  assert (Hp : performs c).
  { destruct v as [s|s|a].
    - rewrite (Hgood s eq_refl) in Hm. injection Hm as <-.
      apply performs_Println; [discriminate | reflexivity].
    - discriminate Himpl.
    - destruct m; injection Hm as <-;
        apply performs_Println; solve [discriminate | reflexivity]. }
  split; [exact Hp | exact (performs_not_stub c Hp)].
Qed.

(** The amended C3 at [AdvancedMachine.Scan]. *)
Lemma Machine_operations_perform_witness :
  let a := InterfaceSegregation.Build_AdvancedMachine in
  InterfaceSegregation.implements (InterfaceSegregation.of_AdvancedMachine a)
    InterfaceSegregation.Machine = true
  /\ InterfaceSegregation.method (InterfaceSegregation.of_AdvancedMachine a)
       InterfaceSegregation.Scan = Some (InterfaceSegregation.AdvancedMachine_Scan a)
  /\ performs (InterfaceSegregation.AdvancedMachine_Scan a)
  /\ ~ stub (InterfaceSegregation.AdvancedMachine_Scan a).
Proof.
  intros a. split; [reflexivity |]. split; [reflexivity |].
  apply (Machine_operations_perform_except_SimplePrinterOne_stubs
           (InterfaceSegregation.of_AdvancedMachine a) InterfaceSegregation.Scan).
  - reflexivity.
  - reflexivity.
  - intros s H. discriminate H.
Defined.

(** *** Every operation, case by case *)

Lemma writes_one_line_Println (text : string) :
  count_LF text = 0 -> writes_one_line (Println [text]).
Proof. intros H. exists text. split; [exact H | reflexivity]. Qed.

Lemma writes_one_line_Save (orderID : int) :
  writes_one_line
    (Printf [Lit "Saving order "; Verb_d orderID; Lit " to database"; Lit newline]).
Proof.
  exists ("Saving order " ++ fmt_d orderID ++ " to database").
  split; [apply count_LF_Save_line |].
  intros w. exact (run_Save SingleResponsibility.Build_OrderRepository orderID w).
Qed.

Lemma writes_one_line_Process (amount : float64) :
  writes_one_line (Printf [Lit "Processing payment of "; Verb_2f amount; Lit newline]).
Proof.
  exists ("Processing payment of " ++ fmt_2f amount).
  split; [apply count_LF_Process_line |].
  intros w. exact (run_Process SingleResponsibility.Build_PaymentService amount w).
Qed.

Lemma writes_one_line_Generate (orderID : int) :
  writes_one_line (Printf [Lit "Generating invoice for order "; Verb_d orderID; Lit newline]).
Proof.
  exists ("Generating invoice for order " ++ fmt_d orderID).
  split; [apply count_LF_Generate_line |].
  intros w. exact (run_Generate SingleResponsibility.Build_InvoiceService orderID w).
Qed.

Lemma writes_one_line_PDFGenerator_Generate
    (p : DependencyInversion.PDFGenerator) (content : string) :
  count_LF content = 0 ->
  writes_one_line (DependencyInversion.PDFGenerator_Generate p content).
Proof.
  intros H. exists ("Generating PDF with content: " ++ content).
  split; [rewrite count_LF_append, H; reflexivity | reflexivity].
Qed.

Lemma count_LF_PDFGenerator_Generate
    (p : DependencyInversion.PDFGenerator) (content : string) :
  count_LF (written (DependencyInversion.PDFGenerator_Generate p content))
  = 1 + count_LF content.
Proof.
  change (written (DependencyInversion.PDFGenerator_Generate p content))
    with (("Generating PDF with content: " ++ content) ++ newline).
  rewrite !count_LF_append. simpl. lia.
Qed.

Lemma stateless_Println (operands : list string) : stateless (Println operands).
Proof. apply stateless_write. Qed.

Lemma stateless_Printf (format : list directive) : stateless (Printf format).
Proof. apply stateless_write. Qed.

(** A computation that runs as another one does shares its properties. *)
Lemma run_bind_ret {A B : Type} (a : A) (k : A -> Go B) (w : stdout) :
  run (bind (ret a) k) w = run (k a) w.
Proof. now rewrite run_bind, run_ret. Qed.

Lemma run_bind_panic {A B : Type} (v : panic_value) (k : A -> Go B) (w : stdout) :
  run (bind (panic v) k) w = (inl v, w).
Proof. now rewrite run_bind, run_panic. Qed.

Lemma stateless_bind_ret {A B : Type} (a : A) (k : A -> Go B) :
  stateless (k a) -> stateless (bind (ret a) k).
Proof.
  intros H w. unfold outcome, written. rewrite !run_bind_ret. apply H.
Qed.

Lemma stateless_bind_panic {A B : Type} (v : panic_value) (k : A -> Go B) :
  stateless (bind (panic v) k).
Proof.
  intros w. unfold outcome, written. rewrite !run_bind_panic. simpl.
  now rewrite append_empty_r.
Qed.

Lemma writes_one_line_bind_ret {A : Type} (a : A) (k : A -> Go unit) :
  writes_one_line (k a) -> writes_one_line (bind (ret a) k).
Proof.
  intros (line & Hc & Hrun). exists line. split; [exact Hc |].
  intros w. now rewrite run_bind_ret.
Qed.

(** Case analysis on an operation, down to the interface values and the
    pointers it is given. *)
Ltac destruct_values :=
  repeat match goal with
         | b : Bird_value |- _ => destruct b
         | n : Notification_value |- _ => destruct n
         | g : ReportGenerator_value |- _ => destruct g
         | p : pointer _ |- _ => destruct p
         end.

(** Unfolding an operation down to the calls of [fmt] and [panic] it makes. *)
Ltac unfold_operation :=
  cbv beta iota zeta delta
    [invoke deref through_pointer
     Bird_of_value Notification_of_value ReportGenerator_of_value
     ReportServiceOne_with ReportServiceOne_pointer_with
     LiskovSubstitution.Sparrow_Fly LiskovSubstitution.MakeBirdFly
     LiskovSubstitution.Bird_Fly LiskovSubstitution.Fly LiskovSubstitution.Sparrow_is_Bird
     LiskovSubstitution.Sparrow_pointer_is_Bird
     OpenClosed.EmailService_Send OpenClosed.SmsService_Send OpenClosed.SendNotification
     OpenClosed.Notification_Send OpenClosed.Send
     OpenClosed.EmailService_is_Notification OpenClosed.SmsService_is_Notification
     OpenClosed.EmailService_pointer_is_Notification
     OpenClosed.SmsService_pointer_is_Notification
     DependencyInversion.PDFGenerator_Generate DependencyInversion.ReportService_CreateReport
     DependencyInversion.ReportServiceOne_CreateReport
     DependencyInversion.ReportServiceOne_ptr_CreateReport
     DependencyInversion.NewReportServiceOne
     DependencyInversion.ReportGenerator_Generate DependencyInversion.Generate
     DependencyInversion.generator DependencyInversion.PDFGenerator_is_ReportGenerator
     DependencyInversion.PDFGenerator_pointer_is_ReportGenerator
     InterfaceSegregation.SimplePrinterOne_Print InterfaceSegregation.SimplePrinterOne_Scan
     InterfaceSegregation.SimplePrinterOne_Fax InterfaceSegregation.SimplePrinter_Print
     InterfaceSegregation.AdvancedMachine_Print InterfaceSegregation.AdvancedMachine_Scan
     InterfaceSegregation.AdvancedMachine_Fax
     SingleResponsibility.OrderRepository_Save SingleResponsibility.PaymentService_Process
     SingleResponsibility.EmailService_Send SingleResponsibility.InvoiceService_Generate
     SingleResponsibility.OrderService_PlaceOrder
     SingleResponsibilityCopy.OrderRepository_Save SingleResponsibilityCopy.PaymentService_Process
     SingleResponsibilityCopy.EmailService_Send SingleResponsibilityCopy.InvoiceService_Generate
     SingleResponsibilityCopy.OrderService_PlaceOrder].

Ltac stateless_step :=
  lazymatch goal with
  | |- stateless (Println _) => apply stateless_Println
  | |- stateless (Printf _) => apply stateless_Printf
  | |- stateless (panic _) => apply stateless_panic
  | |- stateless (ret _) => apply stateless_ret
  | |- stateless (bind (ret _) _) => apply stateless_bind_ret; unfold_operation
  | |- stateless (bind (panic _) _) => apply stateless_bind_panic
  | |- stateless (bind _ _) => apply stateless_bind; [| intros _]
  end.

Lemma stateless_invoke (op : operation) : stateless (invoke op).
Proof. destruct op; destruct_values; unfold_operation; repeat stateless_step. Qed.

Ltac one_line_step :=
  lazymatch goal with
  | |- writes_one_line (Println [_; _]) =>
      apply (writes_one_line_PDFGenerator_Generate DependencyInversion.Build_PDFGenerator);
      try reflexivity
  | |- writes_one_line (Println [_]) => apply writes_one_line_Println; reflexivity
  | |- writes_one_line (Printf [Lit "Saving order "; _; _; _]) => apply writes_one_line_Save
  | |- writes_one_line (Printf [Lit "Processing payment of "; _; _]) =>
      apply writes_one_line_Process
  | |- writes_one_line (Printf [Lit "Generating invoice for order "; _; _]) =>
      apply writes_one_line_Generate
  | |- writes_one_line (bind (ret _) _) =>
      apply writes_one_line_bind_ret; unfold_operation; one_line_step
  end.

Lemma outcome_invoke (op : operation) :
  panicking op = false -> outcome (invoke op) = inr tt.
Proof.
  destruct op; destruct_values; intros H; try discriminate H; reflexivity.
Qed.

Lemma run_panicking (op : operation) :
  panicking op = true -> exists msg, forall w, run (invoke op) w = (inl msg, w).
Proof.
  destruct op; destruct_values; intros H; try discriminate H;
    eexists; intros w; reflexivity.
Qed.

(** C7, as stated, fails: [PlaceOrder(1, 5000)] writes four lines, not one. *)
Lemma PlaceOrder_writes_four_lines :
  let os :=
    SingleResponsibility.Build_OrderService
      SingleResponsibility.Build_OrderRepository SingleResponsibility.Build_PaymentService
      SingleResponsibility.Build_EmailService SingleResponsibility.Build_InvoiceService in
  let c := invoke (SRP_OrderService_PlaceOrder os 1%Z 5000%Z) in
  is_lines (written c)
    ["Saving order 1 to database"; "Processing payment of 5000.00";
     "Sending confirmation email"; "Generating invoice for order 1"]
  /\ ~ writes_one_line c
  /\ ~ (forall op : operation, writes_one_line (invoke op)).
Proof.
  intros os c.
  assert (Hn : ~ writes_one_line c).
  { intros H.
    assert (H4 : count_LF (written c) = 4) by (vm_compute; reflexivity).
    pose proof (writes_one_line_unique c 4 H H4). discriminate. }
  split; [vm_compute; reflexivity |]. split; [exact Hn |].
  intros H. exact (Hn (H _)).
Qed.

(** C7, amended.  An operation that is not [PlaceOrder], that does not panic
    and that is not the constructor [NewReportServiceOne], invoked with a
    string argument that holds no newline, returns after writing exactly one
    line to standard output; [PlaceOrder] writes exactly four lines; the
    operations that panic write nothing: [SimplePrinterOne.Scan] and
    [SimplePrinterOne.Fax], and [SendNotification], [MakeBirdFly] and
    [ReportServiceOne.CreateReport] when the interface value they call
    through is nil or holds a nil pointer, and [CreateReport] called through
    a nil [*ReportServiceOne]; [NewReportServiceOne] returns without writing
    anything. *)
Theorem lines_written_by_an_operation :
  forall op : operation,
    (sequences_collaborators op = false -> panicking op = false -> constructs op = false ->
     count_LF (string_argument op) = 0 ->
     writes_one_line (invoke op))
    /\ (sequences_collaborators op = true ->
        (exists l1 l2 l3 l4, is_lines (written (invoke op)) [l1; l2; l3; l4])
        /\ forall w, run (invoke op) w = (inr tt, w ++ written (invoke op)))
    /\ (panicking op = true ->
        exists msg, forall w, run (invoke op) w = (inl msg, w))
    /\ (constructs op = true ->
        forall w, run (invoke op) w = (inr tt, w)).
Proof.
  intros op. split; [| split; [| split]].
  - intros Hseq Hpanic Hcons Harg.
    destruct op; destruct_values;
      try discriminate Hseq; try discriminate Hpanic; try discriminate Hcons;
      simpl string_argument in Harg; unfold_operation; one_line_step.
    exact Harg.
  - intros Hseq.
    destruct op; try discriminate Hseq.
    + split.
      * do 4 eexists.
        exact (is_lines_PlaceOrder os orderId amount).
      * intros w.
        rewrite (stateless_invoke (SRP_OrderService_PlaceOrder os orderId amount) w).
        reflexivity.
    + split.
      * do 4 eexists.
        exact (is_lines_PlaceOrder
                 (SingleResponsibility.Build_OrderService
                    SingleResponsibility.Build_OrderRepository
                    SingleResponsibility.Build_PaymentService
                    SingleResponsibility.Build_EmailService
                    SingleResponsibility.Build_InvoiceService) orderId amount).
      * intros w.
        rewrite (stateless_invoke (SRP2_OrderService_PlaceOrder os orderId amount) w).
        reflexivity.
  - apply run_panicking.
  - intros Hcons w.
    destruct op; try discriminate Hcons. reflexivity.
Qed.

(** The amended C7 at [PDFGenerator.Generate("Annual Financial Report")]. *)
Lemma lines_written_by_an_operation_witness :
  let op := DIP_PDFGenerator_Generate DependencyInversion.Build_PDFGenerator
              "Annual Financial Report" in
  sequences_collaborators op = false
  /\ panicking op = false
  /\ constructs op = false
  /\ count_LF (string_argument op) = 0
  /\ writes_one_line (invoke op).
Proof.
  intros op.
  split; [reflexivity |]. split; [reflexivity |]. split; [reflexivity |].
  split; [reflexivity |].
  apply (proj1 (lines_written_by_an_operation op)); reflexivity.
Defined.

(** Why the string argument must hold no newline: [Generate] prints its
    argument as it is. *)
Example PDFGenerator_Generate_two_lines :
  is_lines
    (written (DependencyInversion.PDFGenerator_Generate DependencyInversion.Build_PDFGenerator
                ("Annual" ++ newline ++ "Report")))
    ["Generating PDF with content: Annual"; "Report"].
Proof. vm_compute. reflexivity. Qed.

(** C8.  For every operation of the repository there are one result and one
    piece of output such that, whatever standard output holds when the
    operation is invoked, the invocation gives that result and appends that
    output: nothing an earlier invocation did is read.  In particular a
    second invocation, in the state the first one left, gives the same
    result and appends the same output again. *)
Theorem every_operation_is_stateless :
  forall op : operation,
  exists (result : panic_value + unit) (output : string),
    (forall w : stdout, run (invoke op) w = (result, w ++ output))
    /\ (forall w : stdout,
          run (invoke op) (snd (run (invoke op) w)) = (result, (w ++ output) ++ output)).
Proof.
  intros op. exists (outcome (invoke op)), (written (invoke op)).
  pose proof (stateless_invoke op) as H.
  split.
  - exact H.
  - intros w. rewrite (H w). simpl. apply H.
Qed.

(** The struct types of the variants have no field: a variant holds no state
    an invocation could read or change. *)
Lemma variants_have_no_fields :
  (forall a b : LiskovSubstitution.Sparrow, a = b)
  /\ (forall a b : OpenClosed.EmailService, a = b)
  /\ (forall a b : OpenClosed.SmsService, a = b)
  /\ (forall a b : DependencyInversion.PDFGenerator, a = b)
  /\ (forall a b : InterfaceSegregation.SimplePrinterOne, a = b)
  /\ (forall a b : InterfaceSegregation.SimplePrinter, a = b)
  /\ (forall a b : InterfaceSegregation.AdvancedMachine, a = b)
  /\ (forall a b : SingleResponsibility.OrderRepository, a = b)
  /\ (forall a b : SingleResponsibility.PaymentService, a = b)
  /\ (forall a b : SingleResponsibility.EmailService, a = b)
  /\ (forall a b : SingleResponsibility.InvoiceService, a = b).
Proof. repeat split; intros [] []; reflexivity. Qed.

(** The conversion [float64(amount)] rounds an [int] beyond 53 bits: the
    payment line of [PlaceOrder(7, 9007199254740993)] shows the neighbouring
    even value. *)
Example PlaceOrder_rounds_large_amounts :
  split_lines
    (written
       (SingleResponsibility.OrderService_PlaceOrder
          (SingleResponsibility.Build_OrderService
             SingleResponsibility.Build_OrderRepository SingleResponsibility.Build_PaymentService
             SingleResponsibility.Build_EmailService SingleResponsibility.Build_InvoiceService)
          7%Z 9007199254740993%Z))
  = ["Saving order 7 to database"; "Processing payment of 9007199254740992.00";
     "Sending confirmation email"; "Generating invoice for order 7"; ""].
Proof. vm_compute. reflexivity. Qed.

(** ** Further properties of the code *)

(** *** The conversion [float64(amount)] is exact up to 53 bits *)

Lemma digits2_pos_lower (p : positive) :
  (2 ^ (Zpos (digits2_pos p) - 1) <= Zpos p)%Z.
Proof.
  induction p as [p IH | p IH |]; cbn [digits2_pos].
  - rewrite Pos2Z.inj_succ.
    replace (Z.succ (Zpos (digits2_pos p)) - 1)%Z
      with (Z.succ (Zpos (digits2_pos p) - 1))%Z by lia.
    rewrite Z.pow_succ_r by lia. rewrite (Pos2Z.inj_xI p).
    revert IH. generalize (2 ^ (Zpos (digits2_pos p) - 1))%Z. intros x IH. lia.
  - rewrite Pos2Z.inj_succ.
    replace (Z.succ (Zpos (digits2_pos p)) - 1)%Z
      with (Z.succ (Zpos (digits2_pos p) - 1))%Z by lia.
    rewrite Z.pow_succ_r by lia. rewrite (Pos2Z.inj_xO p).
    revert IH. generalize (2 ^ (Zpos (digits2_pos p) - 1))%Z. intros x IH. lia.
  - simpl. lia.
Qed.

Lemma digits2_pos_small (p : positive) :
  (Zpos p < 2 ^ 53)%Z -> (Zpos (digits2_pos p) <= 53)%Z.
Proof.
  intros H. pose proof (digits2_pos_lower p) as L.
  destruct (Z_le_gt_dec (Zpos (digits2_pos p)) 53) as [Hle | Hgt]; [exact Hle |].
  assert (2 ^ 53 <= 2 ^ (Zpos (digits2_pos p) - 1))%Z
    by (apply Z.pow_le_mono_r; lia).
  lia.
Qed.

Lemma iter_xO_value (p d : positive) :
  Zpos (Pos.iter xO p d) = (Zpos p * 2 ^ Zpos d)%Z.
Proof.
  induction d as [| d IH] using Pos.peano_ind.
  - simpl. lia.
  - rewrite Pos.iter_succ, Pos2Z.inj_xO, IH, Pos2Z.inj_succ, Z.pow_succ_r by lia. lia.
Qed.

Lemma iter_xO_digits (p d : positive) :
  digits2_pos (Pos.iter xO p d) = (digits2_pos p + d)%positive.
Proof.
  induction d as [| d IH] using Pos.peano_ind.
  - simpl. now rewrite Pos.add_1_r.
  - rewrite Pos.iter_succ. cbn [digits2_pos]. rewrite IH. now rewrite Pos.add_succ_r.
Qed.

(** A mantissa of exactly 53 bits with an exponent in range is kept as it
    is by the rounding. *)
Lemma binary_round_aux_53 (s : bool) (m : positive) (e : Z) :
  Zpos (digits2_pos m) = 53%Z -> (-1074 <= e <= 971)%Z ->
  binary_round_aux 53 1024 s (Zpos m) e loc_Exact = S754_finite s m e.
Proof.
  intros Hd He.
  assert (Hshift : (fexp 53 1024 (Zdigits2 (Zpos m) + e) - e = 0)%Z).
  { cbn [Zdigits2]. rewrite Hd. unfold fexp, emin. lia. }
  unfold binary_round_aux, shr_fexp. rewrite Hshift.
  cbn [shr shr_record_of_loc loc_of_shr_record shr_m round_nearest_even].
  rewrite Hshift. cbn [shr shr_record_of_loc shr_m].
  destruct (Z.leb_spec e (1024 - 53)); [reflexivity | lia].
Qed.

(** The [float64] of a positive [int] below [2^53]: the [int] itself, its
    mantissa shifted to 53 bits. *)
Lemma binary_round_small (s : bool) (p : positive) :
  (Zpos p < 2 ^ 53)%Z ->
  exists (m : positive) (e : Z),
    binary_round 53 1024 s p 0 = S754_finite s m e
    /\ (e <= 0)%Z /\ Zpos m = (Zpos p * 2 ^ (- e))%Z.
Proof.
  intros Hp. pose proof (digits2_pos_small p Hp) as Hk.
  unfold binary_round, shl_align.
  assert (Hf : fexp 53 1024 (Zpos (digits2_pos p) + 0) = (Zpos (digits2_pos p) - 53)%Z).
  { unfold fexp, emin. lia. }
  rewrite Hf, Z.sub_0_r.
  destruct (Zpos (digits2_pos p) - 53)%Z as [| q | d] eqn:Hq.
  - exists p, 0%Z. split; [| split; [lia | simpl; lia]].
    apply binary_round_aux_53; lia.
  - lia.
  - exists (Pos.iter xO p d), (Zneg d). split; [| split; [lia |]].
    + apply binary_round_aux_53; [| lia].
      rewrite iter_xO_digits, Pos2Z.inj_add. lia.
    + rewrite iter_xO_value. reflexivity.
Qed.

Lemma hundredths_exact (p m : positive) (e : Z) :
  (e <= 0)%Z -> Zpos m = (Zpos p * 2 ^ (- e))%Z ->
  hundredths m e = (Zpos p * 100)%Z.
Proof.
  intros He Hm. unfold hundredths.
  destruct (Z.leb_spec 0 e) as [H0 | H0].
  - assert (e = 0%Z) by lia. subst e. simpl in Hm. rewrite Hm. simpl. lia.
  - assert (Hd : (0 < 2 ^ (- e))%Z) by (apply Z.pow_pos_nonneg; lia).
    rewrite Hm.
    replace (Zpos p * 2 ^ (- e) * 100)%Z with (Zpos p * 100 * 2 ^ (- e))%Z by lia.
    rewrite Z.div_mul, Z.mod_mul by lia.
    cbv zeta. destruct (Z.ltb_spec (2 * 0) (2 ^ (- e))); [reflexivity | lia].
Qed.

Lemma fixed2_whole (p : positive) :
  fixed2 (Zpos p * 100) = fmt_d (Zpos p) ++ ".00".
Proof.
  unfold fixed2.
  rewrite Z.div_mul, Z.mod_mul by lia.
  replace (Zpos p * 100)%Z with (Zpos p * 10 * 10)%Z by lia.
  rewrite Z.mod_mul by lia. reflexivity.
Qed.

Lemma fmt_d_negative (p : positive) : fmt_d (Zneg p) = "-" ++ fmt_d (Zpos p).
Proof. reflexivity. Qed.

Lemma fmt_2f_of_small_int (n : int) :
  (- 2 ^ 53 < n < 2 ^ 53)%Z -> fmt_2f (float64_of_int n) = fmt_d n ++ ".00".
Proof.
  intros Hn. unfold float64_of_int, binary_normalize.
  destruct n as [| p | p].
  - reflexivity.
  - destruct (binary_round_small false p) as (m & e & -> & He & Hm); [lia |].
    cbn [fmt_2f sign_of]. rewrite (hundredths_exact p m e He Hm).
    now rewrite fixed2_whole.
  - destruct (binary_round_small true p) as (m & e & -> & He & Hm); [lia |].
    cbn [fmt_2f sign_of]. rewrite (hundredths_exact p m e He Hm).
    now rewrite fixed2_whole, fmt_d_negative.
Qed.

Lemma fmt_2f_of_int_53 (n : int) :
  (- 2 ^ 53 <= n <= 2 ^ 53)%Z -> fmt_2f (float64_of_int n) = fmt_d n ++ ".00".
Proof.
  intros Hn.
  destruct (Z.eq_dec n (2 ^ 53)) as [-> | Hhi]; [vm_compute; reflexivity |].
  destruct (Z.eq_dec n (- 2 ^ 53)) as [-> | Hlo]; [vm_compute; reflexivity |].
  apply fmt_2f_of_small_int. lia.
Qed.

(** *** What [%d] prints can be read back *)

Lemma int_of_string_fmt_d (z : int) :
  NilZero.int_of_string (fmt_d z) = Some (Z.to_int z).
Proof.
  unfold fmt_d. apply NilZero.isi; destruct z as [| p | p]; simpl; try discriminate.
  - intros [= H]. exact (DecimalPos.Unsigned.to_uint_nonnil p H).
  - intros [= H]. exact (DecimalPos.Unsigned.to_uint_nonnil p H).
Qed.

Lemma fmt_d_inj (a b : int) : fmt_d a = fmt_d b -> a = b.
Proof.
  intros H. apply DecimalZ.to_int_inj.
  pose proof (int_of_string_fmt_d a) as Ha. rewrite H, int_of_string_fmt_d in Ha.
  now injection Ha.
Qed.

Lemma append_inv_head (a b c : string) : a ++ b = a ++ c -> b = c.
Proof.
  induction a as [|x a IH]; simpl; intros H; [exact H |].
  injection H as H. now apply IH.
Qed.

Lemma length_append (a b : string) :
  String.length (a ++ b) = String.length a + String.length b.
Proof. induction a as [|x a IH]; simpl; [reflexivity | now rewrite IH]. Qed.

Lemma append_inv_tail (a b c : string) : a ++ c = b ++ c -> a = b.
Proof.
  revert b. induction a as [|x a IH]; intros [|y b] H; simpl in H.
  - reflexivity.
  - apply (f_equal String.length) in H. simpl in H. rewrite length_append in H. lia.
  - apply (f_equal String.length) in H. simpl in H. rewrite length_append in H. lia.
  - injection H as -> H. f_equal. now apply IH.
Qed.

(** *** Output made of complete lines *)

(** The text that the complete lines [ls] make. *)
Lemma split_lines_not_nil (s : string) : split_lines s <> [].
Proof.
  intros H. pose proof (length_split_lines s) as L. rewrite H in L. discriminate.
Qed.

Lemma split_lines_snoc (s : string) :
  split_lines (s ++ newline) = (split_lines s ++ [EmptyString])%list.
Proof.
  induction s as [|c s IH]; [reflexivity |].
  cbn [append split_lines]. rewrite IH.
  destruct (is_LF c); [reflexivity |].
  destruct (split_lines s) as [|h t] eqn:E; [now apply split_lines_not_nil in E |].
  reflexivity.
Qed.

Lemma is_lines_inv (s : string) :
  forall ls, is_lines s ls ->
    s = String.concat "" (map (fun l => l ++ newline) ls)
    /\ Forall (fun l => count_LF l = 0) ls.
Proof.
  unfold is_lines.
  induction s as [|c s IH]; intros ls H; cbn [split_lines] in H.
  - destruct ls as [|l [|l' ls]]; try discriminate H. split; [reflexivity | constructor].
  - destruct (is_LF c) eqn:Ec.
    + destruct ls as [|l ls]; cbn in H.
      * injection H as H. now apply split_lines_not_nil in H.
      * injection H as <- H. destruct (IH ls H) as [Hs Hf].
        apply Ascii.eqb_eq in Ec. subst c.
        split; [| constructor; [reflexivity | exact Hf]].
        rewrite Hs at 1. destruct ls; reflexivity.
    + destruct (split_lines s) as [|h t] eqn:E; [now apply split_lines_not_nil in E |].
      destruct ls as [|l ls]; cbn in H; [discriminate H |].
      injection H as <- H.
      destruct (IH (h :: ls)) as [Hs Hf]; [cbn; congruence |].
      apply Forall_cons_iff in Hf. destruct Hf as [Hh Hls].
      split.
      * rewrite Hs at 1. destruct ls; reflexivity.
      * constructor; [cbn; now rewrite Ec, Hh | exact Hls].
Qed.

Lemma is_lines_of_concat (ls : list string) :
  Forall (fun l => count_LF l = 0) ls ->
  forall r rs, is_lines r rs ->
    is_lines (String.concat "" (map (fun l => l ++ newline) ls) ++ r) (ls ++ rs).
Proof.
  induction 1 as [|l ls Hl Hls IH]; intros r rs Hr; [exact Hr |].
  replace (String.concat "" (map (fun l0 => l0 ++ newline) (l :: ls)) ++ r)
    with (l ++ newline ++ (String.concat "" (map (fun l0 => l0 ++ newline) ls) ++ r)).
  - apply is_lines_cons; [exact Hl | now apply IH].
  - destruct ls; cbn [map String.concat]; now rewrite ?append_assoc.
Qed.

(** Complete lines followed by complete lines are complete lines. *)
Lemma is_lines_app (a b : string) (la lb : list string) :
  is_lines a la -> is_lines b lb -> is_lines (a ++ b) (la ++ lb).
Proof.
  intros Ha Hb. destruct (is_lines_inv a la Ha) as [-> Hf].
  now apply is_lines_of_concat.
Qed.

Lemma is_lines_split_snoc (s : string) : is_lines (s ++ newline) (split_lines s).
Proof. apply split_lines_snoc. Qed.

Lemma written_PlaceOrder_lines
    (os os' : SingleResponsibility.OrderService) (orderId orderId' amount amount' : int) :
  written (SingleResponsibility.OrderService_PlaceOrder os orderId amount)
  = written (SingleResponsibility.OrderService_PlaceOrder os' orderId' amount') ->
  "Saving order " ++ fmt_d orderId ++ " to database"
  = "Saving order " ++ fmt_d orderId' ++ " to database"
  /\ "Processing payment of " ++ fmt_2f (float64_of_int amount)
     = "Processing payment of " ++ fmt_2f (float64_of_int amount').
Proof.
  intros H.
  pose proof (is_lines_PlaceOrder os orderId amount) as L.
  pose proof (is_lines_PlaceOrder os' orderId' amount') as L'.
  unfold is_lines in L, L'. rewrite H, L' in L.
  injection L as H1 H2 _. split; congruence.
Qed.

(** X1.  For an amount of at most 53 bits, [PlaceOrder] prints the amount as
    it is, followed by ".00": the conversion to [float64] loses nothing. *)
Theorem PlaceOrder_prints_the_amount_exactly :
  forall (os : SingleResponsibility.OrderService) (orderId amount : int),
    (- 2 ^ 53 <= amount <= 2 ^ 53)%Z ->
    is_lines (written (SingleResponsibility.OrderService_PlaceOrder os orderId amount))
      ["Saving order " ++ fmt_d orderId ++ " to database";
       "Processing payment of " ++ fmt_d amount ++ ".00";
       "Sending confirmation email";
       "Generating invoice for order " ++ fmt_d orderId].
Proof.
  intros os orderId amount Ha.
  rewrite <- (fmt_2f_of_int_53 amount Ha).
  apply is_lines_PlaceOrder.
Qed.

(** X1 at [PlaceOrder(1, 5000)]. *)
Lemma PlaceOrder_prints_the_amount_exactly_witness :
  (- 2 ^ 53 <= 5000 <= 2 ^ 53)%Z
  /\ is_lines
       (written
          (SingleResponsibility.OrderService_PlaceOrder
             (SingleResponsibility.Build_OrderService
                SingleResponsibility.Build_OrderRepository
                SingleResponsibility.Build_PaymentService
                SingleResponsibility.Build_EmailService
                SingleResponsibility.Build_InvoiceService) 1%Z 5000%Z))
       ["Saving order " ++ fmt_d 1%Z ++ " to database";
        "Processing payment of " ++ fmt_d 5000%Z ++ ".00";
        "Sending confirmation email";
        "Generating invoice for order " ++ fmt_d 1%Z].
Proof.
  split; [lia |].
  apply (PlaceOrder_prints_the_amount_exactly _ 1%Z 5000%Z). lia.
Defined.

(** X2.  Beyond 53 bits the conversion rounds: two different amounts, both
    values of a 64-bit [int], make [PlaceOrder] write the same bytes, whatever
    the order. *)
Theorem PlaceOrder_confuses_amounts_beyond_53_bits :
  exists amount amount' : int,
    amount <> amount'
    /\ (- 2 ^ 63 <= amount < 2 ^ 63)%Z /\ (- 2 ^ 63 <= amount' < 2 ^ 63)%Z
    /\ forall (os : SingleResponsibility.OrderService) (orderId : int) (w : stdout),
         run (SingleResponsibility.OrderService_PlaceOrder os orderId amount) w
         = run (SingleResponsibility.OrderService_PlaceOrder os orderId amount') w.
Proof.
  exists (2 ^ 53)%Z, (2 ^ 53 + 1)%Z.
  split; [lia |]. split; [lia |]. split; [lia |].
  intros os orderId w. rewrite !run_PlaceOrder.
  replace (fmt_2f (float64_of_int (2 ^ 53 + 1)%Z)) with (fmt_2f (float64_of_int (2 ^ 53)%Z))
    by (vm_compute; reflexivity).
  reflexivity.
Qed.

(** X3.  The order number can be read off the output of [PlaceOrder]: two
    calls that write the same bytes were given the same [orderId]. *)
Theorem PlaceOrder_output_determines_the_order :
  forall (os os' : SingleResponsibility.OrderService) (orderId orderId' amount amount' : int),
    written (SingleResponsibility.OrderService_PlaceOrder os orderId amount)
    = written (SingleResponsibility.OrderService_PlaceOrder os' orderId' amount') ->
    orderId = orderId'.
Proof.
  intros os os' orderId orderId' amount amount' H.
  destruct (written_PlaceOrder_lines os os' orderId orderId' amount amount' H) as [H1 _].
  apply append_inv_head, append_inv_tail in H1. now apply fmt_d_inj.
Qed.

(** X3 at two calls [PlaceOrder(7, 5000)] and [PlaceOrder(7, 5000)]. *)
Lemma PlaceOrder_output_determines_the_order_witness :
  let os :=
    SingleResponsibility.Build_OrderService
      SingleResponsibility.Build_OrderRepository SingleResponsibility.Build_PaymentService
      SingleResponsibility.Build_EmailService SingleResponsibility.Build_InvoiceService in
  written (SingleResponsibility.OrderService_PlaceOrder os 7%Z 5000%Z)
  = written (SingleResponsibility.OrderService_PlaceOrder os 7%Z 5000%Z)
  /\ 7%Z = 7%Z.
Proof.
  intros os. split; [reflexivity |].
  apply (PlaceOrder_output_determines_the_order os os 7%Z 7%Z 5000%Z 5000%Z).
  reflexivity.
Defined.

(** X4.  Within 53 bits the amount can be read off too. *)
Theorem PlaceOrder_output_determines_a_small_amount :
  forall (os os' : SingleResponsibility.OrderService) (orderId orderId' amount amount' : int),
    (- 2 ^ 53 <= amount <= 2 ^ 53)%Z -> (- 2 ^ 53 <= amount' <= 2 ^ 53)%Z ->
    written (SingleResponsibility.OrderService_PlaceOrder os orderId amount)
    = written (SingleResponsibility.OrderService_PlaceOrder os' orderId' amount') ->
    amount = amount'.
Proof.
  intros os os' orderId orderId' amount amount' Ha Ha' H.
  destruct (written_PlaceOrder_lines os os' orderId orderId' amount amount' H) as [_ H2].
  rewrite (fmt_2f_of_int_53 amount Ha), (fmt_2f_of_int_53 amount' Ha') in H2.
  apply append_inv_head, append_inv_tail in H2. now apply fmt_d_inj.
Qed.

(** X4 at two calls [PlaceOrder(1, 5000)]. *)
Lemma PlaceOrder_output_determines_a_small_amount_witness :
  let os :=
    SingleResponsibility.Build_OrderService
      SingleResponsibility.Build_OrderRepository SingleResponsibility.Build_PaymentService
      SingleResponsibility.Build_EmailService SingleResponsibility.Build_InvoiceService in
  (- 2 ^ 53 <= 5000 <= 2 ^ 53)%Z
  /\ written (SingleResponsibility.OrderService_PlaceOrder os 1%Z 5000%Z)
     = written (SingleResponsibility.OrderService_PlaceOrder os 1%Z 5000%Z)
  /\ 5000%Z = 5000%Z.
Proof.
  intros os. split; [lia |]. split; [reflexivity |].
  apply (PlaceOrder_output_determines_a_small_amount os os 1%Z 1%Z 5000%Z 5000%Z);
    [lia | lia | reflexivity].
Defined.

(** X5.  [PDFGenerator.Generate] prints its argument as it is, after a fixed
    prefix and before a newline, the empty string included; so it writes one
    line more than the argument holds newlines, and two calls that write the
    same bytes were given the same content. *)
Theorem PDFGenerator_Generate_prints_content_verbatim :
  forall (p : DependencyInversion.PDFGenerator) (content : string),
    (forall w : stdout,
        run (DependencyInversion.PDFGenerator_Generate p content) w
        = (inr tt, w ++ "Generating PDF with content: " ++ content ++ newline))
    /\ count_LF (written (DependencyInversion.PDFGenerator_Generate p content))
       = 1 + count_LF content
    /\ is_lines (written (DependencyInversion.PDFGenerator_Generate p content))
         (split_lines ("Generating PDF with content: " ++ content))
    /\ (forall (p' : DependencyInversion.PDFGenerator) (content' : string),
          written (DependencyInversion.PDFGenerator_Generate p content)
          = written (DependencyInversion.PDFGenerator_Generate p' content') ->
          content = content').
Proof.
  intros p content.
  assert (Hw : forall q c,
             written (DependencyInversion.PDFGenerator_Generate q c)
             = ("Generating PDF with content: " ++ c) ++ newline) by reflexivity.
  split; [reflexivity |]. split; [apply count_LF_PDFGenerator_Generate |]. split.
  - rewrite Hw. apply is_lines_split_snoc.
  - intros p' content' H. rewrite !Hw in H.
    apply append_inv_tail, append_inv_head in H. exact H.
Qed.

(** X6.  No coordinator checks for nil.  Called with the nil interface value,
    [SendNotification] and [MakeBirdFly] panic with a nil dereference and
    write nothing.  [NewReportServiceOne(nil)] does not fail: it returns a
    usable pointer, and it is [CreateReport] on it that panics, as it does on
    the zero value of [ReportServiceOne], while the zero value of
    [ReportService], whose generator is a struct, creates its report. *)
Theorem coordinators_panic_on_nil :
  forall w : stdout,
    run (OpenClosed.SendNotification OpenClosed.Notification_nil) w = (inl nil_dereference, w)
    /\ run (LiskovSubstitution.MakeBirdFly LiskovSubstitution.Bird_nil) w
       = (inl nil_dereference, w)
    /\ run (deref (DependencyInversion.NewReportServiceOne DependencyInversion.ReportGenerator_nil)) w
       = (inr (DependencyInversion.Build_ReportServiceOne DependencyInversion.ReportGenerator_nil), w)
    /\ run (DependencyInversion.ReportServiceOne_ptr_CreateReport
              (DependencyInversion.NewReportServiceOne DependencyInversion.ReportGenerator_nil)) w
       = (inl nil_dereference, w)
    /\ run (DependencyInversion.ReportServiceOne_CreateReport
              (DependencyInversion.Build_ReportServiceOne DependencyInversion.ReportGenerator_nil)) w
       = (inl nil_dereference, w)
    /\ run (DependencyInversion.ReportService_CreateReport
              (DependencyInversion.Build_ReportService DependencyInversion.Build_PDFGenerator)) w
       = (inr tt, w ++ "Generating PDF with content: Annual Financial Report" ++ newline).
Proof. intros w. repeat split. Qed.

(** X7.  [NewReportServiceOne] stores the generator it is given and returns
    a pointer that is never nil: for a generator of any type with the method
    [Generate], [CreateReport] through the pointer runs as the generator's
    own [Generate("Annual Financial Report")] does, whatever that does. *)
Theorem NewReportServiceOne_CreateReport_runs_the_generator :
  forall (T : Type) (M : DependencyInversion.ReportGenerator_methods T) (g : T) (w : stdout),
    DependencyInversion.NewReportServiceOne (DependencyInversion.ReportGenerator_of g)
    = address_of (DependencyInversion.Build_ReportServiceOne
                    (DependencyInversion.ReportGenerator_of g))
    /\ run (DependencyInversion.ReportServiceOne_ptr_CreateReport
              (DependencyInversion.NewReportServiceOne (DependencyInversion.ReportGenerator_of g))) w
       = run (DependencyInversion.Generate g "Annual Financial Report") w.
Proof.
  intros T M g w. split; [reflexivity |].
  unfold DependencyInversion.ReportServiceOne_ptr_CreateReport.
  rewrite run_bind. reflexivity.
Qed.

(** X8.  Splitting the fat interface loses nothing: a value implements
    [Machine] exactly when it implements [Printer], [Scanner] and [Faxer]. *)
Theorem Machine_is_Printer_and_Scanner_and_Faxer :
  forall v : InterfaceSegregation.value,
    InterfaceSegregation.implements v InterfaceSegregation.Machine = true
    <-> (InterfaceSegregation.implements v InterfaceSegregation.Printer = true
         /\ InterfaceSegregation.implements v InterfaceSegregation.Scanner = true
         /\ InterfaceSegregation.implements v InterfaceSegregation.Faxer = true).
Proof.
  intros v. unfold InterfaceSegregation.implements.
  change InterfaceSegregation.Machine
    with (InterfaceSegregation.Printer ++ InterfaceSegregation.Scanner
          ++ InterfaceSegregation.Faxer)%list.
  rewrite !forallb_app, !andb_true_iff. reflexivity.
Qed.

(** X9.  Every struct type of the package implements [Printer], and [Print]
    does the same on all of them: it returns after writing the line
    "Printing document".  No implementation of [Printer] is a stub. *)
Theorem every_Printer_prints :
  forall v : InterfaceSegregation.value,
    InterfaceSegregation.implements v InterfaceSegregation.Printer = true
    /\ exists c : Go unit,
         InterfaceSegregation.method v InterfaceSegregation.Print = Some c
         /\ (forall w : stdout, run c w = (inr tt, w ++ "Printing document" ++ newline))
         /\ ~ stub c.
Proof.
  intros v. split; [destruct v; reflexivity |].
  destruct v as [s | s | a]; eexists; (split; [reflexivity |]);
    (split; [reflexivity |]);
    apply performs_not_stub, performs_Println; solve [discriminate | reflexivity].
Qed.

(** X10.  Two operations called one after the other: when the first panics
    (a stub, or a call through nil), the second is not run, nothing is
    written and the panic is the result; otherwise the output of the first is
    followed by the output of the second, and the result is the result of the
    second. *)
Theorem two_operations_in_sequence :
  forall (op1 op2 : operation) (w : stdout),
    run (invoke op1 ;; invoke op2) w =
    if panicking op1 then (outcome (invoke op1), w)
    else (outcome (invoke op2), w ++ written (invoke op1) ++ written (invoke op2)).
Proof.
  intros op1 op2 w. rewrite run_bind.
  destruct (panicking op1) eqn:U.
  - destruct (run_panicking op1 U) as [msg Hmsg].
    unfold outcome. now rewrite !Hmsg.
  - rewrite (stateless_invoke op1 w), (outcome_invoke op1 U).
    rewrite (stateless_invoke op2). now rewrite append_assoc.
Qed.

(** X11.  The three entry points return normally, whatever is on standard
    output already: none of them reaches a panic, a nil interface value or a
    nil pointer.  They append one line (Liskov), one line (Dependency
    Inversion) and two lines (Open/Closed). *)
Theorem entry_points_return_normally :
  forall w : stdout,
    run LiskovSubstitution.main w = (inr tt, w ++ "Sparrow is flying" ++ newline)
    /\ run DependencyInversion.main w
       = (inr tt, w ++ "Generating PDF with content: Annual Financial Report" ++ newline)
    /\ run OpenClosed.main w
       = (inr tt, w ++ ("Sending email..." ++ newline) ++ ("Sending SMS..." ++ newline)).
Proof.
  intros w. split; [reflexivity |]. split; [reflexivity |].
  unfold OpenClosed.main. cbv zeta. rewrite run_bind.
  change (run (OpenClosed.SendNotification (OpenClosed.Notification_of OpenClosed.Build_EmailService)) w)
    with (inr tt : panic_value + unit, w ++ "Sending email..." ++ newline).
  cbv iota beta.
  change (run (OpenClosed.SendNotification (OpenClosed.Notification_of OpenClosed.Build_SmsService))
            (w ++ "Sending email..." ++ newline))
    with (inr tt : panic_value + unit, (w ++ "Sending email..." ++ newline) ++ "Sending SMS..." ++ newline).
  now rewrite append_assoc.
Qed.

Lemma writes_one_line_is_lines (c : Go unit) :
  writes_one_line c -> exists added, is_lines (written c) added.
Proof.
  intros (line & Hc & Hrun). exists [line].
  unfold written. rewrite Hrun. now apply is_lines_one.
Qed.

(** X12.  Standard output only ever holds complete lines: if it does before
    an operation is invoked, it does afterwards, and the lines it held are
    still there, followed by those the operation wrote.  This holds for every
    operation and argument, a content with newlines, a panic and a call
    through nil included. *)
Theorem operations_keep_standard_output_in_complete_lines :
  forall (op : operation) (w : stdout) (before : list string),
    is_lines w before ->
    exists added : list string,
      is_lines (snd (run (invoke op) w)) (before ++ added)
      /\ is_lines (written (invoke op)) added.
Proof.
  intros op w before Hw.
  assert (Hadd : exists added, is_lines (written (invoke op)) added).
  { destruct (panicking op) eqn:U.
    - destruct (run_panicking op U) as [msg Hmsg].
      exists []. unfold written. rewrite Hmsg. apply is_lines_nil.
    - destruct op; destruct_values; try discriminate U;
        try (apply writes_one_line_is_lines; unfold_operation; one_line_step; fail);
        try (exists []; reflexivity).
      + exists (split_lines ("Generating PDF with content: " ++ content)).
        exact (is_lines_split_snoc ("Generating PDF with content: " ++ content)).
      + eexists. exact (is_lines_PlaceOrder os orderId amount).
      + eexists.
        exact (is_lines_PlaceOrder
                 (SingleResponsibility.Build_OrderService
                    SingleResponsibility.Build_OrderRepository
                    SingleResponsibility.Build_PaymentService
                    SingleResponsibility.Build_EmailService
                    SingleResponsibility.Build_InvoiceService) orderId amount). }
  destruct Hadd as [added Hadd]. exists added. split; [| exact Hadd].
  rewrite (stateless_invoke op w). cbn [snd]. now apply is_lines_app.
Qed.

(** X12 at [AdvancedMachine.Scan()] after one line of output. *)
Lemma operations_keep_complete_lines_witness :
  is_lines ("Printing document" ++ newline) ["Printing document"]
  /\ exists added : list string,
       is_lines
         (snd (run (invoke (ISP_AdvancedMachine_Scan InterfaceSegregation.Build_AdvancedMachine))
                 ("Printing document" ++ newline)))
         (["Printing document"] ++ added)
       /\ is_lines
            (written (invoke (ISP_AdvancedMachine_Scan InterfaceSegregation.Build_AdvancedMachine)))
            added.
Proof.
  split; [reflexivity |].
  apply (operations_keep_standard_output_in_complete_lines
           (ISP_AdvancedMachine_Scan InterfaceSegregation.Build_AdvancedMachine)).
  reflexivity.
Defined.
